(** * kws_streaming/models/att_rnn.py: BiLSTM model with attention

    A shallow embedding of the two functions of the module,
    [model_parameters] (registration of the hyperparameters on an argparse
    parser) and [model] (construction of the Keras layer graph), and the
    properties of the layer graph that [model] builds.

    The Keras functional API is modelled as a graph store: every layer call
    appends one node (the layer with its hyperparameters, the ids of the
    tensors it is applied to, the shape of its output) and returns a tensor
    handle naming that node.  What the framework itself decides (the output
    shape of a layer call, or that the call raises) and what
    [kws_streaming.models.utils.parse] returns are parameters of the
    development. *)

From Stdlib Require Import ZArith QArith Qround Ascii String List.
From stdpp Require Import base gmap list strings.

Set Warnings "-register-all".
Local Open Scope string_scope.
Local Open Scope list_scope.
Local Open Scope nat_scope.

(** ** Python values *)

(** The Python values that flags, parsed hyperparameter strings and layer
    keyword arguments hold. *)
Inductive PyVal : Type :=
| VNone
| VBool (b : bool)
| VInt (z : Z)
| VFloat (q : Q)
| VStr (s : string)
| VTuple (vs : list PyVal).

(** Exceptions.  [KeyError], [ValueError], [TypeError] and [IndexError] are
    the exceptions that the module's own statements raise or build;
    [ArgumentError] is argparse's; an exception raised inside a library call
    (a Keras layer, [utils.parse], a type callable) is carried as
    [LibraryError] with its text. *)
Inductive exn : Type :=
| KeyError (key : string)
| ValueError (args : list PyVal)
| TypeError (msg : string)
| IndexError (msg : string)
| ArgumentError (option_string : string)
| LibraryError (msg : string).

Inductive result (A : Type) : Type :=
| OK (a : A)
| Raise (e : exn).
Arguments OK {A} a.
Arguments Raise {A} e.

Definition result_bind {A B} (r : result A) (k : A -> result B) : result B :=
  match r with
  | OK a => k a
  | Raise e => Raise e
  end.

(** What a library call does: it returns, or fails with a message. *)
Inductive Lib (A : Type) : Type :=
| Returns (a : A)
| Fails (msg : string).
Arguments Returns {A} a.
Arguments Fails {A} msg.

Definition lib_result {A} (r : Lib A) : result A :=
  match r with
  | Returns a => OK a
  | Fails msg => Raise (LibraryError msg)
  end.

(** ** Layers and the graph store *)

(** A static tensor shape: [None] is an unknown dimension. *)
Abbreviation Shape := (list (option Z)).

Inductive RnnClass : Type := LSTM | GRU.

(** Keyword arguments of [speech_features.SpeechFeatures]. *)
Record SpeechParams : Type := {
  frame_size_ms : PyVal;
  frame_step_ms : PyVal;
  sf_sample_rate : PyVal;
  sf_use_tf_fft : PyVal;
  sf_preemph : PyVal;
  sf_window_type : PyVal;
  sf_mel_num_bins : PyVal;
  sf_mel_lower_edge_hertz : PyVal;
  sf_mel_upper_edge_hertz : PyVal;
  sf_mel_non_zero_only : PyVal;
  sf_fft_magnitude_squared : PyVal;
  sf_dct_num_features : PyVal
}.

(** The layers (and the two tensor operations) [model] uses, each with the
    arguments the source passes; an argument the source leaves out keeps the
    library's default and is not recorded, except [Dense]'s [activation],
    which is [VNone] when left out. *)
Inductive Layer : Type :=
| Input (shape : PyVal) (batch_size : PyVal)
| SpeechFeatures (p : SpeechParams)
| ExpandDims                               (* tf.keras.backend.expand_dims(net) *)
| Conv2D (filters kernel_size activation dilation_rate strides : PyVal)
         (padding : string)
| BatchNormalization
| Reshape (target_shape : list Z)
| Rnn (cls : RnnClass) (units : PyVal) (return_sequences unroll : bool)
| Bidirectional (layer : Layer)
| SliceTime (index : Z)                    (* net[:, index, :] *)
| Dense (units : PyVal) (activation : PyVal)
| Dot (axes : list Z)
| Softmax (name : string)
| Dropout (rate : PyVal).

(** A tensor handle: the node that produces it and its static shape. *)
Record Tensor : Type := { t_id : nat; t_shape : Shape }.

Record Node : Type := {
  n_layer : Layer;
  n_inputs : list nat;
  n_shape : Shape
}.

(** The graph store: node [i] is the [i]-th layer call made so far. *)
Abbreviation Graph := (list Node).

Record KerasModel : Type := { m_inputs : Tensor; m_outputs : Tensor }.

(** ** The state-and-exception monad

    Python mutates an object (the graph under construction, the parser) and
    may raise; what was mutated before the exception stays mutated. *)

Definition State (S A : Type) : Type := S -> S * result A.

Definition ret {S A} (a : A) : State S A := fun s => (s, OK a).

Definition bind {S A B} (m : State S A) (k : A -> State S B) : State S B :=
  fun s =>
    match m s with
    | (s', OK a) => k a s'
    | (s', Raise e) => (s', Raise e)
    end.

Definition lift {S A} (r : result A) : State S A := fun s => (s, r).

Notation "x <- m ;; k" := (bind m (fun x => k))
  (at level 100, m at next level, right associativity).

(** The builder of layer graphs. *)
Definition M (A : Type) : Type := State Graph A.

(** [for x in xs: s = body(x, s)] *)
Fixpoint for_each {A S} (xs : list A) (body : A -> S -> M S) (s : S) : M S :=
  match xs with
  | [] => ret s
  | x :: xs' => s' <- body x s ;; for_each xs' body s'
  end.

(** ** Python built-ins used by [model] *)

(** [range(n)] *)
Definition range (n : Z) : list Z := map Z.of_nat (seq 0 (Z.to_nat n)).

(** [zip] of two and of five sequences: stops with the shortest. *)
Fixpoint zip2 {A B} (xs : list A) (ys : list B) : list (A * B) :=
  match xs, ys with
  | x :: xs', y :: ys' => (x, y) :: zip2 xs' ys'
  | _, _ => []
  end.

Fixpoint zip5 {A B C D E} (l1 : list A) (l2 : list B) (l3 : list C)
  (l4 : list D) (l5 : list E) : list (A * B * C * D * E) :=
  match l1, l2, l3, l4, l5 with
  | a :: l1', b :: l2', c :: l3', d :: l4', e :: l5' =>
      (a, b, c, d, e) :: zip5 l1' l2' l3' l4' l5'
  | _, _, _, _, _ => []
  end.

(** [key in d] and [d[key]] on a dict with string keys. *)
Definition py_in {V} (key : string) (d : gmap string V) : bool :=
  bool_decide (is_Some (d !! key)).

Definition getitem {V} (d : gmap string V) (key : string) : result V :=
  match d !! key with
  | Some v => OK v
  | None => Raise (KeyError key)
  end.

(** [shape[i]], with Python's negative indices. *)
Definition shape_get (sh : Shape) (i : Z) : result (option Z) :=
  let n := Z.of_nat (length sh) in
  let j := (if i <? 0 then n + i else i)%Z in
  if ((0 <=? j) && (j <? n))%Z%bool
  then match sh !! Z.to_nat j with
       | Some d => OK d
       | None => Raise (IndexError "tuple index out of range")
       end
  else Raise (IndexError "tuple index out of range").

(** [a * b] and [a // b] on dimensions: arithmetic on [None] is a
    TypeError ([//] by the literal 2 never divides by 0). *)
Definition dim_mul (a b : option Z) : result Z :=
  match a, b with
  | Some x, Some y => OK (x * y)%Z
  | _, _ => Raise (TypeError "unsupported operand type(s) for *")
  end.

Definition dim_floordiv (a : option Z) (b : Z) : result Z :=
  match a with
  | Some x => OK (x / b)%Z
  | None => Raise (TypeError "unsupported operand type(s) for //")
  end.

(** A dimension as the Python value it is. *)
Definition dim_val (d : option Z) : PyVal :=
  match d with
  | Some x => VInt x
  | None => VNone
  end.

(** ** Flags *)

(** The fields of [flags] that [model] reads.  The eleven registered by
    [model_parameters] have the type their [add_argument] gives them; the
    others come from elsewhere and are carried as Python values. *)
Record Flags : Type := {
  desired_samples : PyVal;
  batch_size : PyVal;
  window_size_ms : PyVal;
  window_stride_ms : PyVal;
  sample_rate : PyVal;
  use_tf_fft : PyVal;
  preemph : PyVal;
  window_type : PyVal;
  mel_num_bins : PyVal;
  mel_lower_edge_hertz : PyVal;
  mel_upper_edge_hertz : PyVal;
  mel_non_zero_only : PyVal;
  fft_magnitude_squared : PyVal;
  dct_num_features : PyVal;
  label_count : PyVal;
  cnn_filters : string;
  cnn_kernel_size : string;
  cnn_act : string;
  cnn_dilation_rate : string;
  cnn_strides : string;
  rnn_layers : Z;
  rnn_type : string;
  rnn_units : Z;
  dropout1 : Q;
  units2 : string;
  act2 : string
}.

(** ** model *)

Section Model.

(** [kws_streaming.models.utils.parse]: a hyperparameter string to the
    list of the values it denotes. *)
Variable parse : string -> Lib (list PyVal).

(** The framework: constructing layer [l] and calling it on tensors of the
    given shapes yields the output shape, or fails. *)
Variable infer : Layer -> list Shape -> Lib Shape.

(** [layer(inputs)]: one more node in the graph. *)
Definition call (l : Layer) (inputs : list Tensor) : M Tensor :=
  fun g =>
    match infer l (map t_shape inputs) with
    | Returns sh =>
        (g ++ [{| n_layer := l; n_inputs := map t_id inputs; n_shape := sh |}],
         OK {| t_id := length g; t_shape := sh |})
    | Fails msg => (g, Raise (LibraryError msg))
    end.

Definition rnn_types : gmap string RnnClass :=
  {[ "lstm" := LSTM; "gru" := GRU ]}.

Definition speech_params (flags : Flags) : SpeechParams :=
  {| frame_size_ms := window_size_ms flags;
     frame_step_ms := window_stride_ms flags;
     sf_sample_rate := sample_rate flags;
     sf_use_tf_fft := use_tf_fft flags;
     sf_preemph := preemph flags;
     sf_window_type := window_type flags;
     sf_mel_num_bins := mel_num_bins flags;
     sf_mel_lower_edge_hertz := mel_lower_edge_hertz flags;
     sf_mel_upper_edge_hertz := mel_upper_edge_hertz flags;
     sf_mel_non_zero_only := mel_non_zero_only flags;
     sf_fft_magnitude_squared := fft_magnitude_squared flags;
     sf_dct_num_features := dct_num_features flags |}.

(** Body of the loop over the CNN stages. *)
Definition cnn_stage (st : PyVal * PyVal * PyVal * PyVal * PyVal)
  (net : Tensor) : M Tensor :=
  let '(filters, kernel_size, activation, dilation_rate, strides) := st in
  net <- call (Conv2D filters kernel_size activation dilation_rate strides
                 "same") [net] ;;
  call BatchNormalization [net].

(** Body of the loop over the RNN layers. *)
Definition rnn_stage (rnn : RnnClass) (flags : Flags) (_ : Z)
  (net : Tensor) : M Tensor :=
  call (Bidirectional (Rnn rnn (VInt (rnn_units flags)) true true)) [net].

(** Body of the loop over the last hidden layers. *)
Definition dense_stage (st : PyVal * PyVal) (net : Tensor) : M Tensor :=
  let '(units, activation) := st in
  call (Dense units activation) [net].

Definition model (flags : Flags) : M KerasModel :=
  _ <- (if negb (py_in (rnn_type flags) rnn_types)
        then
          (* the exception object is built and dropped: no [raise] *)
          let _ := ValueError [VStr "not supported RNN type ";
                               VStr (rnn_type flags)] in
          ret tt
        else ret tt) ;;
  rnn <- lift (getitem rnn_types (rnn_type flags)) ;;
  input_audio <- call (Input (VTuple [desired_samples flags])
                         (batch_size flags)) [] ;;
  net <- call (SpeechFeatures (speech_params flags)) [input_audio] ;;
  net <- call ExpandDims [net] ;;
  filters <- lift (lib_result (parse (cnn_filters flags))) ;;
  kernel_sizes <- lift (lib_result (parse (cnn_kernel_size flags))) ;;
  activations <- lift (lib_result (parse (cnn_act flags))) ;;
  dilation_rates <- lift (lib_result (parse (cnn_dilation_rate flags))) ;;
  strides <- lift (lib_result (parse (cnn_strides flags))) ;;
  net <- for_each (zip5 filters kernel_sizes activations dilation_rates
                     strides) cnn_stage net ;;
  let shape := t_shape net in
  d2 <- lift (shape_get shape 2) ;;
  d3 <- lift (shape_get shape 3) ;;
  features <- lift (dim_mul d2 d3) ;;
  net <- call (Reshape [(-1)%Z; features]) [net] ;;
  net <- for_each (range (rnn_layers flags)) (rnn_stage rnn flags) net ;;
  feature_dim <- lift (shape_get (t_shape net) (-1)) ;;
  d1 <- lift (shape_get (t_shape net) 1) ;;
  middle <- lift (dim_floordiv d1 2) ;;
  mid_feature <- call (SliceTime middle) [net] ;;
  query <- call (Dense (dim_val feature_dim) VNone) [mid_feature] ;;
  att_weights <- call (Dot [1%Z; 2%Z]) [query; net] ;;
  att_weights <- call (Softmax "attSoftmax") [att_weights] ;;
  net <- call (Dot [1%Z; 1%Z]) [att_weights; net] ;;
  net <- call (Dropout (VFloat (dropout1 flags))) [net] ;;
  units <- lift (lib_result (parse (units2 flags))) ;;
  acts <- lift (lib_result (parse (act2 flags))) ;;
  net <- for_each (zip2 units acts) dense_stage net ;;
  net <- call (Dense (label_count flags) VNone) [net] ;;
  ret {| m_inputs := input_audio; m_outputs := net |}.

End Model.

(** ** Describing the graph that [model] builds *)

(** What a node is, up to the shape the framework infers for it: its layer
    and the nodes it is applied to. *)
Definition sig (n : Node) : Layer * list nat := (n_layer n, n_inputs n).

(** Counting layers by kind. *)
Definition is_conv2d (l : Layer) : bool :=
  match l with Conv2D _ _ _ _ _ _ => true | _ => false end.
Definition is_batchnorm (l : Layer) : bool :=
  match l with BatchNormalization => true | _ => false end.
Definition is_dense (l : Layer) : bool :=
  match l with Dense _ _ => true | _ => false end.
Definition is_speech_features (l : Layer) : bool :=
  match l with SpeechFeatures _ => true | _ => false end.

Definition count (f : Layer -> bool) (g : list Node) : nat :=
  length (List.filter f (map n_layer g)).

(** Layers applied one after the other, the first one to node [prev], each
    of the others to the node before it. *)
Fixpoint chain_sigs (prev : nat) (ls : list Layer) : list (Layer * list nat) :=
  match ls with
  | [] => []
  | l :: ls' => (l, [prev]) :: chain_sigs (S prev) ls'
  end.

(** Tensor [t] is the output of a node of [g]. *)
Definition produced (g : Graph) (t : Tensor) : Prop :=
  exists n, g !! t_id t = Some n /\ n_shape n = t_shape t.

Definition conv_layers (st : PyVal * PyVal * PyVal * PyVal * PyVal)
  : list Layer :=
  let '(filters, kernel_size, activation, dilation_rate, strides) := st in
  [Conv2D filters kernel_size activation dilation_rate strides "same";
   BatchNormalization].

Definition dense_layer (st : PyVal * PyVal) : Layer :=
  let '(units, activation) := st in Dense units activation.

Definition birnn (rnn : RnnClass) (flags : Flags) : Layer :=
  Bidirectional (Rnn rnn (VInt (rnn_units flags)) true true).

Definition input_layer (flags : Flags) : Layer :=
  Input (VTuple [desired_samples flags]) (batch_size flags).

(** From the speech features to the last recurrent layer. *)
Definition trunk_layers (flags : Flags) (rnn : RnnClass)
  (stages : list (PyVal * PyVal * PyVal * PyVal * PyVal)) (features : Z)
  : list Layer :=
  [SpeechFeatures (speech_params flags); ExpandDims]
  ++ flat_map conv_layers stages
  ++ [Reshape [(-1)%Z; features]]
  ++ repeat (birnn rnn flags) (Z.to_nat (rnn_layers flags)).

(** The attention head over node [h]. *)
Definition attention (h : nat) (feature_dim : PyVal) (middle : Z)
  : list (Layer * list nat) :=
  [ (SliceTime middle, [h]);
    (Dense feature_dim VNone, [h + 1]);
    (Dot [1%Z; 2%Z], [h + 2; h]);
    (Softmax "attSoftmax", [h + 3]);
    (Dot [1%Z; 1%Z], [h + 4; h]) ].

(** From the dropout to the output layer. *)
Definition tail_layers (flags : Flags) (finals : list (PyVal * PyVal))
  : list Layer :=
  [Dropout (VFloat (dropout1 flags))]
  ++ map dense_layer finals
  ++ [Dense (label_count flags) VNone].

(** The whole architecture, built from node [b] on. *)
Definition arch (b : nat) (flags : Flags) (rnn : RnnClass)
  (stages : list (PyVal * PyVal * PyVal * PyVal * PyVal)) (features : Z)
  (feature_dim : PyVal) (middle : Z) (finals : list (PyVal * PyVal))
  : list (Layer * list nat) :=
  let trunk := trunk_layers flags rnn stages features in
  let h := b + length trunk in
  [(input_layer flags, [])]
  ++ chain_sigs b trunk
  ++ attention h feature_dim middle
  ++ chain_sigs (h + 5) (tail_layers flags finals).

(** What a successful run of [model] went through: the class looked up,
    the seven parsed lists, and the dimensions read off the static shapes
    (of the convolutional output: [conv_shape], of the recurrent output:
    [rnn_shape]). *)
Record Run : Type := {
  r_rnn : RnnClass;
  r_filters : list PyVal;
  r_kernel_sizes : list PyVal;
  r_activations : list PyVal;
  r_dilation_rates : list PyVal;
  r_strides : list PyVal;
  r_units : list PyVal;
  r_acts : list PyVal;
  r_conv_shape : list (option Z);
  r_d2 : Z;
  r_d3 : Z;
  r_rnn_shape : list (option Z);
  r_feature_dim : option Z;
  r_time : Z
}.

Definition stages (r : Run) : list (PyVal * PyVal * PyVal * PyVal * PyVal) :=
  zip5 (r_filters r) (r_kernel_sizes r) (r_activations r)
    (r_dilation_rates r) (r_strides r).

Definition finals (r : Run) : list (PyVal * PyVal) :=
  zip2 (r_units r) (r_acts r).

Definition trunk_of (flags : Flags) (r : Run) : list Layer :=
  trunk_layers flags (r_rnn r) (stages r) (r_d2 r * r_d3 r).

Definition arch_of (b : nat) (flags : Flags) (r : Run)
  : list (Layer * list nat) :=
  arch b flags (r_rnn r) (stages r) (r_d2 r * r_d3 r)
    (dim_val (r_feature_dim r)) (r_time r / 2) (finals r).

(** The layers of the architecture, in the order they are built. *)
Definition layers_of (flags : Flags) (r : Run) : list Layer :=
  [input_layer flags; SpeechFeatures (speech_params flags); ExpandDims]
  ++ flat_map conv_layers (stages r)
  ++ [Reshape [(-1)%Z; (r_d2 r * r_d3 r)%Z]]
  ++ repeat (birnn (r_rnn r) flags) (Z.to_nat (rnn_layers flags))
  ++ [SliceTime (r_time r / 2); Dense (dim_val (r_feature_dim r)) VNone;
      Dot [1%Z; 2%Z]; Softmax "attSoftmax"; Dot [1%Z; 1%Z]]
  ++ [Dropout (VFloat (dropout1 flags))]
  ++ map dense_layer (finals r)
  ++ [Dense (label_count flags) VNone].

(** Layer and inputs of node [i] of [g]. *)
Definition node_sig (g : Graph) (i : nat) : option (Layer * list nat) :=
  sig <$> g !! i.

(** The attention head over node [h] of [g]: the slice of [h] at the middle
    of its time axis, a [Dense] of as many units as [h] has features, the
    [Dot] of that query with [h], the [Softmax], and the [Dot] of the
    weights with [h]. *)
Definition attention_pooling (g : Graph) (h : nat) : Prop :=
  exists (shape : Shape) (feature_dim : option Z) (time_length : Z),
    n_shape <$> g !! h = Some shape
    /\ shape_get shape (-1) = OK feature_dim
    /\ shape_get shape 1 = OK (Some time_length)
    /\ node_sig g (h + 1) = Some (SliceTime (time_length / 2), [h])
    /\ node_sig g (h + 2) = Some (Dense (dim_val feature_dim) VNone, [h + 1])
    /\ node_sig g (h + 3) = Some (Dot [1%Z; 2%Z], [h + 2; h])
    /\ node_sig g (h + 4) = Some (Softmax "attSoftmax", [h + 3])
    /\ node_sig g (h + 5) = Some (Dot [1%Z; 1%Z], [h + 4; h]).



(** The model's input is node [length g], an [Input] layer; its output is
    the node built last, the [Dense] layer of [label_count] units. *)
Definition model_of (flags : Flags) (g g' : Graph) (m : KerasModel) : Prop :=
  t_id (m_inputs m) = length g
  /\ node_sig g' (length g) = Some (input_layer flags, [])
  /\ produced g' (m_inputs m)
  /\ S (t_id (m_outputs m)) = length g'
  /\ n_layer <$> g' !! t_id (m_outputs m)
     = Some (Dense (label_count flags) VNone)
  /\ produced g' (m_outputs m).

(** The speech front-end: one [SpeechFeatures] layer among the nodes added
    to [g], applied to the audio input, every keyword argument being the
    flag of that name. *)
Definition speech_front_end (flags : Flags) (g g' : Graph) : Prop :=
  exists p,
    node_sig g' (length g) = Some (input_layer flags, [])
    /\ node_sig g' (S (length g)) = Some (SpeechFeatures p, [length g])
    /\ count is_speech_features (drop (length g) g') = 1
    /\ frame_size_ms p = window_size_ms flags
    /\ frame_step_ms p = window_stride_ms flags
    /\ sf_sample_rate p = sample_rate flags
    /\ sf_use_tf_fft p = use_tf_fft flags
    /\ sf_preemph p = preemph flags
    /\ sf_window_type p = window_type flags
    /\ sf_mel_num_bins p = mel_num_bins flags
    /\ sf_mel_lower_edge_hertz p = mel_lower_edge_hertz flags
    /\ sf_mel_upper_edge_hertz p = mel_upper_edge_hertz flags
    /\ sf_mel_non_zero_only p = mel_non_zero_only flags
    /\ sf_fft_magnitude_squared p = fft_magnitude_squared flags
    /\ sf_dct_num_features p = dct_num_features flags.

(** The output of [m] is the node of [g] built last, a [Dense] layer of
    [label_count] units without activation. *)
Definition output_logits (flags : Flags) (g : Graph) (m : KerasModel) : Prop :=
  n_layer <$> g !! t_id (m_outputs m) = Some (Dense (label_count flags) VNone)
  /\ S (t_id (m_outputs m)) = length g.

Definition min5 (a b c d e : nat) : nat :=
  Nat.min a (Nat.min b (Nat.min c (Nat.min d e))).

Section Reads.

Variable parse : string -> Lib (list PyVal).

(** What [r] records is what the run on [flags] read. *)
Definition reads (flags : Flags) (r : Run) : Prop :=
  rnn_types !! rnn_type flags = Some (r_rnn r)
  /\ parse (cnn_filters flags) = Returns (r_filters r)
  /\ parse (cnn_kernel_size flags) = Returns (r_kernel_sizes r)
  /\ parse (cnn_act flags) = Returns (r_activations r)
  /\ parse (cnn_dilation_rate flags) = Returns (r_dilation_rates r)
  /\ parse (cnn_strides flags) = Returns (r_strides r)
  /\ parse (units2 flags) = Returns (r_units r)
  /\ parse (act2 flags) = Returns (r_acts r)
  /\ shape_get (r_conv_shape r) 2 = OK (Some (r_d2 r))
  /\ shape_get (r_conv_shape r) 3 = OK (Some (r_d3 r))
  /\ shape_get (r_rnn_shape r) (-1) = OK (r_feature_dim r)
  /\ shape_get (r_rnn_shape r) 1 = OK (Some (r_time r)).

(** The nodes added to [g] hold as many [Conv2D] and as many
    [BatchNormalization] layers as the shortest of the five parsed CNN
    lists has entries, and as many [Dense] layers as the shorter of the
    two parsed lists of the last hidden layers, plus two (the query
    projection and the output layer). *)
Definition stage_counts (flags : Flags) (g g' : Graph) : Prop :=
  exists l1 l2 l3 l4 l5 l6 l7,
    parse (cnn_filters flags) = Returns l1
    /\ parse (cnn_kernel_size flags) = Returns l2
    /\ parse (cnn_act flags) = Returns l3
    /\ parse (cnn_dilation_rate flags) = Returns l4
    /\ parse (cnn_strides flags) = Returns l5
    /\ parse (units2 flags) = Returns l6
    /\ parse (act2 flags) = Returns l7
    /\ count is_conv2d (drop (length g) g')
       = min5 (length l1) (length l2) (length l3) (length l4) (length l5)
    /\ count is_batchnorm (drop (length g) g')
       = min5 (length l1) (length l2) (length l3) (length l4) (length l5)
    /\ count is_dense (drop (length g) g')
       = Nat.min (length l6) (length l7) + 2.



End Reads.

(** A computation that applies the layers [ls] in a chain, starting from
    the tensor [net] produced last. *)
Definition chained (m : M Tensor) (net : Tensor) (ls : list Layer) : Prop :=
  forall g g' net',
    length g = S (t_id net) -> produced g net -> m g = (g', OK net') ->
    exists d, g' = g ++ d /\ map sig d = chain_sigs (t_id net) ls
              /\ t_id net' = t_id net + length ls /\ produced g' net'.

(** ** Acyclicity *)

(** Every node of [ns], stored from index [i] on, is applied to nodes of
    smaller index only. *)
Fixpoint topo_from (i : nat) (ns : list Node) : bool :=
  match ns with
  | [] => true
  | n :: ns' => forallb (fun j => j <? i) (n_inputs n) && topo_from (S i) ns'
  end.

Definition topological (g : Graph) : Prop := topo_from 0 g = true.

(** [edge g i j]: the output of node [i] is an input of node [j]. *)
Definition edge (g : Graph) (i j : nat) : Prop :=
  exists n, g !! j = Some n /\ In i (n_inputs n).

Definition acyclic (g : Graph) : Prop := forall i, ~ tc (edge g) i i.

Definition live (g : Graph) (t : Tensor) : Prop := t_id t < length g.

(** The exceptions a call of [model] on [flags] may end with: the KeyError
    of the dictionary lookup, when [rnn_type] is not a key of [rnn_types],
    the IndexError and TypeError of the shape arithmetic, and what the
    libraries raise. *)
Definition raised (flags : Flags) (e : exn) : Prop :=
  match e with
  | KeyError key => key = rnn_type flags /\ rnn_types !! key = None
  | IndexError _ | TypeError _ | LibraryError _ => True
  | ValueError _ | ArgumentError _ => False
  end.

(** [safe E Q m g]: run on [g], [m] only adds nodes after those of [g],
    leaves the graph topologically ordered if it was, and ends with a value
    that satisfies [Q] or with an exception in [E]. *)
Definition safe {A} (E : exn -> Prop) (Q : A -> Graph -> Prop) (m : M A)
  (g : Graph) : Prop :=
  exists d r, m g = (g ++ d, r)
    /\ (topological g -> topological (g ++ d))
    /\ match r with OK a => Q a (g ++ d) | Raise e => E e end.

(** Every graph on the way from [g] to [g'], one node added at a time, is
    topologically ordered and so acyclic. *)
Definition stays_acyclic (g g' : Graph) : Prop :=
  exists d, g' = g ++ d
    /\ forall k, topological (g ++ take k d) /\ acyclic (g ++ take k d).

(** ** Two calls compared *)

(** Node ids moved up by [k]. *)
Definition shift_tensor (k : nat) (t : Tensor) : Tensor :=
  {| t_id := k + t_id t; t_shape := t_shape t |}.

Definition shift_node (k : nat) (n : Node) : Node :=
  {| n_layer := n_layer n;
     n_inputs := map (Nat.add k) (n_inputs n);
     n_shape := n_shape n |}.

Definition shift_model (k : nat) (m : KerasModel) : KerasModel :=
  {| m_inputs := shift_tensor k (m_inputs m);
     m_outputs := shift_tensor k (m_outputs m) |}.

Definition shift_result {A} (sh : nat -> A -> A) (k : nat) (r : result A)
  : result A :=
  match r with
  | OK a => OK (sh k a)
  | Raise e => Raise e
  end.

(** [m2], run after [k] nodes that were there before, does what [m1] does
    from the empty graph, node ids moved up by [k]. *)
Definition equivariant {A} (sh : nat -> A -> A) (m1 m2 : M A) (k : nat)
  : Prop :=
  forall b d, length b = k ->
    m2 (b ++ map (shift_node k) d)
    = (b ++ map (shift_node k) (m1 d).1, shift_result sh k (m1 d).2).

(** Two runs, started on the graphs [g1] and [g2], did the same: there is
    one list of nodes and one result, written with node ids counted from
    the first node added, that both runs added and returned, each with the
    ids moved up by the number of nodes it started from. *)
Definition same_construction (g1 g2 : Graph)
  (run1 run2 : Graph * result KerasModel) : Prop :=
  exists d r,
    run1 = (g1 ++ map (shift_node (length g1)) d,
            shift_result shift_model (length g1) r)
    /\ run2 = (g2 ++ map (shift_node (length g2)) d,
               shift_result shift_model (length g2) r).

(** ** model_parameters

    The parser that [model_parameters] receives is taken to be an
    [argparse.ArgumentParser] that keeps the library's settings:
    [conflict_handler='error'], so that an option string registered twice
    is refused, and [prefix_chars='-'], so that a name with leading dashes
    is an option and not a positional argument.  It holds optional
    arguments only, none of them required, each registered through
    [add_argument] with the keyword arguments [type], [default] and
    [help]. *)

Module Argparse.

(** The [type=] callables that [model_parameters] passes. *)
Inductive ArgType : Type := TStr | TInt | TFloat.

(** What one [add_argument] call registers: the option string and the
    keyword arguments [type], [default] ([None]: not given) and [help]. *)
Record Action : Type := {
  option_string : string;
  arg_type : ArgType;
  default : option PyVal;
  help : string
}.

(** The parser object: the actions registered so far, in order, all of
    them optional arguments of a parser with the library's settings. *)
Definition Parser : Type := list Action.

(** [parser.add_argument(name, type=, default=, help=)] on a parser with
    [conflict_handler='error'] and [prefix_chars='-']: argparse refuses an
    option string that is already registered.  (With
    [conflict_handler='resolve'] it would drop the older action instead;
    that setting is not modelled.) *)
Definition add_argument (name : string) (type : ArgType)
  (default : option PyVal) (help : string) : State Parser unit :=
  fun p =>
    if existsb (fun a => String.eqb (option_string a) name) p
    then (p, Raise (ArgumentError name))
    else (p ++ [{| option_string := name; arg_type := type;
                   default := default; help := help |}], OK tt).

(** The attribute an option is stored under: leading dashes stripped,
    inner dashes turned into underscores. *)
Fixpoint lstrip_dash (s : string) : string :=
  match s with
  | String "-"%char s' => lstrip_dash s'
  | _ => s
  end.

Fixpoint dash_to_underscore (s : string) : string :=
  match s with
  | EmptyString => EmptyString
  | String c s' =>
      String (if Ascii.eqb c "-" then "_"%char else c) (dash_to_underscore s')
  end.

Definition dest (a : Action) : string :=
  dash_to_underscore (lstrip_dash (option_string a)).

Definition default_value (a : Action) : PyVal :=
  match default a with
  | Some v => v
  | None => VNone
  end.

Section ParseArgs.

(** [int(s)] and [float(s)] on a string default. *)
Variable py_int : string -> Lib PyVal.
Variable py_float : string -> Lib PyVal.

Definition apply_type (t : ArgType) (s : string) : result PyVal :=
  match t with
  | TStr => OK (VStr s)
  | TInt => lib_result (py_int s)
  | TFloat => lib_result (py_float s)
  end.

(** First pass of [parse_args]: every attribute not set yet gets the
    default of the first action that stores under it. *)
Definition fill_defaults (acts : list Action) (ns : gmap string PyVal)
  : gmap string PyVal :=
  fold_left
    (fun ns a =>
       match ns !! dest a with
       | Some _ => ns
       | None => <[dest a := default_value a]> ns
       end) acts ns.

(** Last pass, no option having been seen on the command line: a string
    default still in place goes through the action's [type]. *)
Fixpoint convert_defaults (acts : list Action) (ns : gmap string PyVal)
  : result (gmap string PyVal) :=
  match acts with
  | [] => OK ns
  | a :: acts' =>
      match default a, ns !! dest a with
      | Some (VStr s), Some (VStr s') =>
          if String.eqb s s'
          then result_bind (apply_type (arg_type a) s)
                 (fun v => convert_defaults acts' (<[dest a := v]> ns))
          else convert_defaults acts' ns
      | _, _ => convert_defaults acts' ns
      end
  end.

(** [parser.parse_args([])]: the namespace of an empty command line, for
    a parser that has neither positional nor required arguments (either
    would make argparse refuse the empty command line). *)
Definition parse_args_empty (p : Parser) : result (gmap string PyVal) :=
  convert_defaults p (fill_defaults p ∅).

End ParseArgs.

Definition model_parameters : State Parser unit :=
  _ <- add_argument "--cnn_filters" TStr (Some (VStr "10,1"))
         "Number of output filters in the convolution layers" ;;
  _ <- add_argument "--cnn_kernel_size" TStr (Some (VStr "(5,1),(5,1)"))
         "Heights and widths of the 2D convolution window" ;;
  _ <- add_argument "--cnn_act" TStr (Some (VStr "'relu','relu'"))
         "Activation function in the convolution layers" ;;
  _ <- add_argument "--cnn_dilation_rate" TStr (Some (VStr "(1,1),(1,1)"))
         "Dilation rate to use for dilated convolutions" ;;
  _ <- add_argument "--cnn_strides" TStr (Some (VStr "(1,1),(1,1)"))
         "Strides of the convolution layers along the height and width" ;;
  _ <- add_argument "--rnn_layers" TInt (Some (VInt 2))
         "number of RNN layers (each RNN is wrapped by Bidirectional)" ;;
  _ <- add_argument "--rnn_type" TStr (Some (VStr "lstm"))
         "RNN type: it can be rnn or lstm" ;;
  _ <- add_argument "--rnn_units" TInt (Some (VInt 64))
         "units number in RNN cell" ;;
  _ <- add_argument "--dropout1" TFloat (Some (VFloat (1 # 2)))
         "Percentage of data dropped" ;;
  _ <- add_argument "--units2" TStr (Some (VStr "64,32"))
         "Number of units in the last set of hidden layers" ;;
  add_argument "--act2" TStr (Some (VStr "'relu','linear'"))
    "Activation function of the last set of hidden layers".




End Argparse.

(** ** A concrete framework, for running the embedding

    One instance of the two parameters of [model]: the values that
    [utils.parse] gives on the default hyperparameter strings (and a few
    more), and shape rules of the layers in the style of Keras. *)

Module Example.

Definition parse_table : list (string * list PyVal) :=
  [ ("10,1", [VInt 10; VInt 1]);
    ("(5,1),(5,1)", [VTuple [VInt 5; VInt 1]; VTuple [VInt 5; VInt 1]]);
    ("'relu','relu'", [VStr "relu"; VStr "relu"]);
    ("(1,1),(1,1)", [VTuple [VInt 1; VInt 1]; VTuple [VInt 1; VInt 1]]);
    ("64,32", [VInt 64; VInt 32]);
    ("'relu','linear'", [VStr "relu"; VStr "linear"]);
    ("", []);
    ("10", [VInt 10]);
    ("64,32,16", [VInt 64; VInt 32; VInt 16]);
    ("'relu'", [VStr "relu"]) ].

Fixpoint assoc (key : string) (tbl : list (string * list PyVal))
  : Lib (list PyVal) :=
  match tbl with
  | [] => Fails "malformed node or string"
  | (k, v) :: tbl' =>
      if String.eqb k key then Returns v else assoc key tbl'
  end.

Definition parse (text : string) : Lib (list PyVal) :=
  assoc text parse_table.

Definition unsupported : Lib Shape := Fails "incompatible shape".

(** ceil(a / b) for a positive stride *)
Definition ceil_div (a b : Z) : Z := ((a + b - 1) / b)%Z.

Definition replace_last (sh : Shape) (d : option Z) : Shape :=
  removelast sh ++ [d].

(** Number of frames and of features that the speech front-end yields. *)
Definition speech_shape (p : SpeechParams) (sh : Shape) : Lib Shape :=
  match sh, frame_size_ms p, frame_step_ms p, sf_sample_rate p,
        sf_mel_num_bins p, sf_dct_num_features p with
  | [b; Some n], VFloat size_ms, VFloat step_ms, VInt rate,
    VInt mel, VInt dct =>
      let size := Qfloor (size_ms * inject_Z rate / 1000) in
      let step := Qfloor (step_ms * inject_Z rate / 1000) in
      if ((0 <? step) && (size <=? n))%Z%bool
      then Returns [b; Some (1 + (n - size) / step)%Z;
               Some (if (0 <? dct)%Z then dct else mel)]
      else unsupported
  | _, _, _, _, _, _ => unsupported
  end.

Definition infer (l : Layer) (ins : list Shape) : Lib Shape :=
  match l, ins with
  | Input (VTuple [VInt n]) (VInt b), [] => Returns [Some b; Some n]
  | SpeechFeatures p, [sh] => speech_shape p sh
  | ExpandDims, [sh] => Returns (sh ++ [Some 1%Z])
  | Conv2D (VInt f) _ _ _ (VTuple [VInt s1; VInt s2]) "same",
    [[b; Some t; Some w; _]] =>
      if ((0 <? f) && (0 <? s1) && (0 <? s2))%Z%bool
      then Returns [b; Some (ceil_div t s1); Some (ceil_div w s2); Some f]
      else unsupported
  | BatchNormalization, [sh] => Returns sh
  | Reshape [(-1)%Z; k], [[b; Some t; Some w; Some c]] =>
      if (0 <? k)%Z then Returns [b; Some (t * w * c / k)%Z; Some k]
      else unsupported
  | Bidirectional (Rnn _ (VInt u) true _), [[b; t; _]] =>
      if (0 <? u)%Z then Returns [b; t; Some (2 * u)%Z] else unsupported
  | SliceTime i, [[b; Some t; f]] =>
      if ((0 <=? i) && (i <? t))%Z%bool then Returns [b; f] else unsupported
  | Dense (VInt u) _, [sh] =>
      if ((0 <? u)%Z && (2 <=? length sh))%bool
      then Returns (replace_last sh (Some u)) else unsupported
  | Dot [1%Z; 2%Z], [[b; _]; [_; t; _]] => Returns [b; t]
  | Dot [1%Z; 1%Z], [[b; _]; [_; _; f]] => Returns [b; f]
  | Softmax _, [sh] => Returns sh
  | Dropout _, [sh] => Returns sh
  | _, _ => unsupported
  end.

(** Flags of a 1 s, 16 kHz, 12-label front-end; the hyperparameters that
    are left out are those that the examples vary. *)
Definition flags_with (rnn_type : string) (rnn_layers : Z)
  (cnn_filters units2 : string) : Flags :=
  {| desired_samples := VInt 16000;
     batch_size := VInt 100;
     window_size_ms := VFloat 40;
     window_stride_ms := VFloat 20;
     sample_rate := VInt 16000;
     use_tf_fft := VBool false;
     preemph := VFloat 0;
     window_type := VStr "hann";
     mel_num_bins := VInt 40;
     mel_lower_edge_hertz := VFloat 20;
     mel_upper_edge_hertz := VFloat 7000;
     mel_non_zero_only := VBool true;
     fft_magnitude_squared := VBool false;
     dct_num_features := VInt 20;
     label_count := VInt 12;
     cnn_filters := cnn_filters;
     cnn_kernel_size := "(5,1),(5,1)";
     cnn_act := "'relu','relu'";
     cnn_dilation_rate := "(1,1),(1,1)";
     cnn_strides := "(1,1),(1,1)";
     rnn_layers := rnn_layers;
     rnn_type := rnn_type;
     rnn_units := 64;
     dropout1 := 1 # 2;
     units2 := units2;
     act2 := "'relu','linear'" |}.

(** The defaults of [model_parameters]. *)
Definition flags : Flags := flags_with "lstm" 2 "10,1" "64,32".

(** The graph and the model that [model] builds on [flags], from the
    empty graph. *)
Definition graph : Graph :=
  Eval vm_compute in (model parse infer flags []).1.

Definition keras_model : KerasModel :=
  {| m_inputs := {| t_id := 0; t_shape := [Some 100%Z; Some 16000%Z] |};
     m_outputs := {| t_id := 18; t_shape := [Some 100%Z; Some 12%Z] |} |}.

(** Lists of unequal lengths: one filter for two kernel sizes, three
    unit counts for two activations. *)
Definition flags_short : Flags := flags_with "lstm" 2 "10" "64,32,16".

Definition graph_short : Graph :=
  Eval vm_compute in (model parse infer flags_short []).1.

Definition keras_model_short : KerasModel :=
  {| m_inputs := {| t_id := 0; t_shape := [Some 100%Z; Some 16000%Z] |};
     m_outputs := {| t_id := 16; t_shape := [Some 100%Z; Some 12%Z] |} |}.

(** [int] and [float] on a string default: none of the defaults of this
    module needs them. *)
Definition py_int (s : string) : Lib PyVal :=
  Fails "invalid literal for int()".
Definition py_float (s : string) : Lib PyVal :=
  Fails "could not convert string to float".

(** The parser that [model_parameters] fills, starting from none. *)
Definition parser : Argparse.Parser :=
  Eval vm_compute in (Argparse.model_parameters []).1.

(** The namespace of the defaults. *)
Definition namespace : list (string * PyVal) :=
  [ ("cnn_filters", VStr "10,1");
    ("cnn_kernel_size", VStr "(5,1),(5,1)");
    ("cnn_act", VStr "'relu','relu'");
    ("cnn_dilation_rate", VStr "(1,1),(1,1)");
    ("cnn_strides", VStr "(1,1),(1,1)");
    ("rnn_layers", VInt 2);
    ("rnn_type", VStr "lstm");
    ("rnn_units", VInt 64);
    ("dropout1", VFloat (1 # 2));
    ("units2", VStr "64,32");
    ("act2", VStr "'relu','linear'") ].

End Example.

(** ** More on the graph that [model] builds *)

Definition is_bidirectional (l : Layer) : bool :=
  match l with Bidirectional _ => true | _ => false end.

(** The nodes that a run from [g] to [g'] added. *)
Definition added (g g' : Graph) : Graph := drop (length g) g'.

(** The [Reshape] is applied to the node that ends the convolution stages
    (the [expand_dims] when there is none); its target is [-1] and the
    product of the dimensions 2 and 3 of that node's static shape, which are
    both known. *)
Definition reshape_node (g g' : Graph) : Prop :=
  exists (i : nat) (sh : Shape) (d2 d3 : Z),
    i = length g + 2 + 2 * count is_conv2d (added g g')
    /\ node_sig g' (S i) = Some (Reshape [(-1)%Z; (d2 * d3)%Z], [i])
    /\ n_shape <$> g' !! i = Some sh
    /\ sh !! 2 = Some (Some d2)
    /\ sh !! 3 = Some (Some d3).

(** With no recurrent layer the attention head sits on the [Reshape]. *)
Definition attention_on_reshape (g g' : Graph) : Prop :=
  count is_bidirectional (added g g') = 0
  /\ exists h target,
       n_layer <$> g' !! h = Some (Reshape target)
       /\ attention_pooling g' h.

(** With no convolution stage the [Reshape] is applied to the
    [expand_dims]. *)
Definition reshape_on_expand_dims (g g' : Graph) : Prop :=
  count is_conv2d (added g g') = 0
  /\ count is_batchnorm (added g g') = 0
  /\ node_sig g' (length g + 2) = Some (ExpandDims, [length g + 1])
  /\ exists target,
       node_sig g' (length g + 3) = Some (Reshape target, [length g + 2]).

(** With no hidden layer the output layer is applied to the dropout. *)
Definition output_on_dropout (flags : Flags) (g g' : Graph) (m : KerasModel)
  : Prop :=
  count is_dense (added g g') = 2
  /\ exists i,
       t_id (m_outputs m) = S i
       /\ n_layer <$> g' !! i = Some (Dropout (VFloat (dropout1 flags)))
       /\ node_sig g' (S i) = Some (Dense (label_count flags) VNone, [i]).

(** The layers of the front-end, the only ones that can be built before the
    hyperparameter strings of the convolutions are parsed. *)
Definition front_end (flags : Flags) : list Layer :=
  [input_layer flags; SpeechFeatures (speech_params flags); ExpandDims].

Section Sizes.

Variable parse : string -> Lib (list PyVal).

(** The number of nodes added and of recurrent layers among them. *)
Definition graph_size (flags : Flags) (g g' : Graph) : Prop :=
  exists l1 l2 l3 l4 l5 l6 l7,
    parse (cnn_filters flags) = Returns l1
    /\ parse (cnn_kernel_size flags) = Returns l2
    /\ parse (cnn_act flags) = Returns l3
    /\ parse (cnn_dilation_rate flags) = Returns l4
    /\ parse (cnn_strides flags) = Returns l5
    /\ parse (units2 flags) = Returns l6
    /\ parse (act2 flags) = Returns l7
    /\ count is_bidirectional (added g g') = Z.to_nat (rnn_layers flags)
    /\ length (added g g')
       = 11 + 2 * min5 (length l1) (length l2) (length l3) (length l4)
                    (length l5)
         + Z.to_nat (rnn_layers flags) + Nat.min (length l6) (length l7).

(** One of the five hyperparameter strings of the convolutions parses to
    no value at all. *)
Definition no_cnn_stage (flags : Flags) : Prop :=
  parse (cnn_filters flags) = Returns []
  \/ parse (cnn_kernel_size flags) = Returns []
  \/ parse (cnn_act flags) = Returns []
  \/ parse (cnn_dilation_rate flags) = Returns []
  \/ parse (cnn_strides flags) = Returns [].

(** One of the five does not parse. *)
Definition cnn_parse_fails (flags : Flags) : Prop :=
  (exists msg, parse (cnn_filters flags) = Fails msg)
  \/ (exists msg, parse (cnn_kernel_size flags) = Fails msg)
  \/ (exists msg, parse (cnn_act flags) = Fails msg)
  \/ (exists msg, parse (cnn_dilation_rate flags) = Fails msg)
  \/ (exists msg, parse (cnn_strides flags) = Fails msg).

End Sizes.

(** Runs on the edges of the hyperparameters, with the framework of
    [Example]. *)
Module Edge.

Definition returned (r : result KerasModel) : KerasModel :=
  match r with
  | OK m => m
  | Raise _ => {| m_inputs := {| t_id := 0; t_shape := [] |};
                  m_outputs := {| t_id := 0; t_shape := [] |} |}
  end.

(** No recurrent layer. *)
Definition flags_no_rnn : Flags := Example.flags_with "lstm" 0 "10,1" "64,32".
Definition graph_no_rnn : Graph :=
  Eval vm_compute in (model Example.parse Example.infer flags_no_rnn []).1.
Definition model_no_rnn : KerasModel :=
  Eval vm_compute in
    returned (model Example.parse Example.infer flags_no_rnn []).2.

(** No convolution stage: the empty string parses to the empty list. *)
Definition flags_no_cnn : Flags := Example.flags_with "lstm" 2 "" "64,32".
Definition graph_no_cnn : Graph :=
  Eval vm_compute in (model Example.parse Example.infer flags_no_cnn []).1.
Definition model_no_cnn : KerasModel :=
  Eval vm_compute in
    returned (model Example.parse Example.infer flags_no_cnn []).2.

(** No hidden layer. *)
Definition flags_no_dense : Flags := Example.flags_with "lstm" 2 "10,1" "".
Definition graph_no_dense : Graph :=
  Eval vm_compute in (model Example.parse Example.infer flags_no_dense []).1.
Definition model_no_dense : KerasModel :=
  Eval vm_compute in
    returned (model Example.parse Example.infer flags_no_dense []).2.

(** A string of filters that does not parse. *)
Definition flags_bad_cnn : Flags := Example.flags_with "lstm" 2 "oops" "64,32".

End Edge.

(** ** How a call of [model] can end *)

(** The layers whose output has its dimensions 2 and 3 read, for the
    target of the [Reshape], and those whose output has its last dimension
    and its dimension 1 read, for the attention. *)
Definition feeds_reshape (l : Layer) : bool :=
  match l with
  | ExpandDims | BatchNormalization => true
  | _ => false
  end.

Definition feeds_attention (l : Layer) : bool :=
  match l with
  | Reshape _ | Bidirectional _ => true
  | _ => false
  end.

(** The static shape of node [n] lacks a dimension that [model] reads
    from it. *)
Definition too_short (n : Node) : Prop :=
  (feeds_reshape (n_layer n) = true /\ length (n_shape n) < 4)
  \/ (feeds_attention (n_layer n) = true /\ length (n_shape n) < 2).

(** A dimension of node [n] that [model] computes with is unknown. *)
Definition unknown_dimension (n : Node) : Prop :=
  (feeds_reshape (n_layer n) = true
   /\ 4 <= length (n_shape n)
   /\ (n_shape n !! 2 = Some None \/ n_shape n !! 3 = Some None))
  \/ (feeds_attention (n_layer n) = true /\ n_shape n !! 1 = Some None).

(** What stands behind the exception [e] of a call on [flags] that leaves
    the graph [g']: the key that [rnn_types] lacks, a shape of the node
    built last that is too short (IndexError) or has an unknown dimension
    (TypeError), or a library call.  The [ValueError] that the source
    builds is never raised. *)
Definition failure_cause (flags : Flags) (g' : Graph) (e : exn) : Prop :=
  match e with
  | KeyError key => key = rnn_type flags /\ rnn_types !! key = None
  | IndexError _ => exists n, last g' = Some n /\ too_short n
  | TypeError _ => exists n, last g' = Some n /\ unknown_dimension n
  | LibraryError _ => True
  | ValueError _ | ArgumentError _ => False
  end.

(** [ends E Q m g]: from [g], [m] ends with a value and a graph in [Q], or
    with an exception and a graph in [E]. *)
Definition ends {A} (E : exn -> Graph -> Prop) (Q : A -> Graph -> Prop)
  (m : M A) (g : Graph) : Prop :=
  match m g with
  | (g', OK a) => Q a g'
  | (g', Raise e) => E e g'
  end.

(** Tensor [t] is the output of the node of [g] built last, a layer of the
    given kind. *)
Definition built_last (kind : Layer -> bool) (t : Tensor) (g : Graph) : Prop :=
  exists n,
    last g = Some n /\ kind (n_layer n) = true /\ n_shape n = t_shape t.

(** A framework in the style of Keras for audio of unknown length: the
    time dimension of [Input(shape=(None,))] is unknown, and the speech
    features, the convolutions with padding 'same' and the [Reshape] to
    [-1] carry it along; an unrolled recurrent layer refuses it.  The
    other shapes are those of [Example]. *)
Module Dynamic.

Definition infer (l : Layer) (ins : list Shape) : Lib Shape :=
  match l, ins with
  | Input (VTuple [VNone]) (VInt b), [] => Returns [Some b; None]
  | SpeechFeatures p, [[b; None]] =>
      match sf_mel_num_bins p, sf_dct_num_features p with
      | VInt mel, VInt dct =>
          Returns [b; None; Some (if (0 <? dct)%Z then dct else mel)]
      | _, _ => Example.unsupported
      end
  | Conv2D (VInt f) _ _ _ (VTuple [VInt s1; VInt s2]) "same",
    [[b; None; Some w; _]] =>
      if ((0 <? f) && (0 <? s1) && (0 <? s2))%Z%bool
      then Returns [b; None; Some (Example.ceil_div w s2); Some f]
      else Example.unsupported
  | Reshape [(-1)%Z; k], [[b; None; Some w; Some c]] =>
      if ((0 <? k) && (k =? w * c))%Z%bool
      then Returns [b; None; Some k]
      else Example.unsupported
  | Bidirectional (Rnn _ _ _ true), [[_; None; _]] =>
      Fails "Cannot unroll a RNN if the time dimension is undefined"
  | _, _ => Example.infer l ins
  end.

(** The defaults of [model_parameters] but for [rnn_layers], on audio of
    unknown length. *)
Definition flags : Flags :=
  {| desired_samples := VNone;
     batch_size := VInt 100;
     window_size_ms := VFloat 40;
     window_stride_ms := VFloat 20;
     sample_rate := VInt 16000;
     use_tf_fft := VBool false;
     preemph := VFloat 0;
     window_type := VStr "hann";
     mel_num_bins := VInt 40;
     mel_lower_edge_hertz := VFloat 20;
     mel_upper_edge_hertz := VFloat 7000;
     mel_non_zero_only := VBool true;
     fft_magnitude_squared := VBool false;
     dct_num_features := VInt 20;
     label_count := VInt 12;
     cnn_filters := "10,1";
     cnn_kernel_size := "(5,1),(5,1)";
     cnn_act := "'relu','relu'";
     cnn_dilation_rate := "(1,1),(1,1)";
     cnn_strides := "(1,1),(1,1)";
     rnn_layers := 0;
     rnn_type := "lstm";
     rnn_units := 64;
     dropout1 := 1 # 2;
     units2 := "64,32";
     act2 := "'relu','linear'" |}.

(** The graph that the call leaves behind. *)
Definition graph : Graph :=
  Eval vm_compute in (model Example.parse infer flags []).1.

End Dynamic.

(** * Properties *)

(** ** Running the monad *)

Lemma bind_ok {S A B} (m : State S A) (k : A -> State S B) s s' b :
  bind m k s = (s', OK b) ->
  exists s1 a, m s = (s1, OK a) /\ k a s1 = (s', OK b).
Proof.
  unfold bind. destruct (m s) as [s1 [a|e]]; [eauto | discriminate].
Qed.

Lemma lift_ok {S A} (r : result A) (s s' : S) a :
  lift r s = (s', OK a) -> s' = s /\ r = OK a.
Proof. unfold lift. intros [= -> ->]. auto. Qed.

Lemma ret_ok {S A} (x : A) (s s' : S) a :
  ret x s = (s', OK a) -> s' = s /\ a = x.
Proof. unfold ret. intros [= -> ->]. auto. Qed.

Lemma lib_result_ok {A} (r : Lib A) a : lib_result r = OK a -> r = Returns a.
Proof. destruct r; simpl; congruence. Qed.

Lemma chain_sigs_app prev ls1 ls2 :
  chain_sigs prev (ls1 ++ ls2)
  = chain_sigs prev ls1 ++ chain_sigs (prev + length ls1) ls2.
Proof.
  revert prev. induction ls1 as [|l ls1 IH]; intros prev; simpl.
  - by rewrite Nat.add_0_r.
  - rewrite IH. do 3 f_equal. lia.
Qed.

Lemma chain_sigs_length prev ls : length (chain_sigs prev ls) = length ls.
Proof. revert prev. induction ls; intros; simpl; auto. Qed.

Lemma chain_sigs_layers prev ls : map fst (chain_sigs prev ls) = ls.
Proof. revert prev. induction ls; intros; simpl; f_equal; auto. Qed.

Lemma produced_app g d t : produced g t -> produced (g ++ d) t.
Proof.
  intros (n & Hn & Hs). exists n. split; [|done].
  by apply lookup_app_l_Some.
Qed.

Lemma produced_lookup g d t k :
  produced (g ++ d) t -> t_id t = length g + k ->
  n_shape <$> d !! k = Some (t_shape t).
Proof.
  intros (n & Hn & Hs) Hid. rewrite Hid, lookup_app_r in Hn by lia.
  replace (length g + k - length g) with k in Hn by lia.
  by rewrite Hn, <- Hs.
Qed.

Lemma chained_ret net : chained (ret net) net [].
Proof.
  intros g g' net' _ Hp [-> ->]%ret_ok. exists []. simpl.
  rewrite app_nil_r, Nat.add_0_r. auto.
Qed.

Lemma chained_bind m k net ls1 ls2 :
  chained m net ls1 ->
  (forall net1, chained (k net1) net1 ls2) ->
  chained (bind m k) net (ls1 ++ ls2).
Proof.
  intros Hm Hk g g' net' Hlen Hp (g1 & net1 & H1 & H2)%bind_ok.
  destruct (Hm _ _ _ Hlen Hp H1) as (d1 & -> & Hs1 & Hid1 & Hp1).
  assert (Hl1 : length d1 = length ls1).
  { by rewrite <- (length_map sig), Hs1, chain_sigs_length. }
  assert (Hlen1 : length (g ++ d1) = S (t_id net1)).
  { rewrite length_app. lia. }
  destruct (Hk _ _ _ _ Hlen1 Hp1 H2) as (d2 & -> & Hs2 & Hid2 & Hp2).
  exists (d1 ++ d2). rewrite app_assoc. split; [done|].
  rewrite map_app, chain_sigs_app, Hs1, Hs2, Hid1, length_app.
  split; [done|]. split; [lia | done].
Qed.

Lemma chained_for_each {A} (body : A -> Tensor -> M Tensor)
  (layers_of : A -> list Layer) xs :
  (forall x net, chained (body x net) net (layers_of x)) ->
  forall net, chained (for_each xs body net) net (flat_map layers_of xs).
Proof.
  intros Hbody. induction xs as [|x xs IH]; intros net; simpl.
  - apply chained_ret.
  - apply chained_bind; [apply Hbody | apply IH].
Qed.

Lemma repeat_range {A} (x : A) n :
  flat_map (fun _ : Z => [x]) (range n) = repeat x (Z.to_nat n).
Proof.
  unfold range. generalize 0. induction (Z.to_nat n) as [|k IH]; intros s.
  - done.
  - simpl. f_equal. apply IH.
Qed.

Lemma zip5_length {A B C D E} (l1 : list A) (l2 : list B) (l3 : list C)
  (l4 : list D) (l5 : list E) :
  length (zip5 l1 l2 l3 l4 l5)
  = min5 (length l1) (length l2) (length l3) (length l4) (length l5).
Proof.
  revert l2 l3 l4 l5. induction l1 as [|a l1 IH]; intros l2 l3 l4 l5.
  - done.
  - destruct l2, l3, l4, l5; simpl; try (unfold min5; lia).
    rewrite IH. unfold min5. lia.
Qed.

Lemma zip2_length {A B} (xs : list A) (ys : list B) :
  length (zip2 xs ys) = Nat.min (length xs) (length ys).
Proof.
  revert ys. induction xs as [|x xs IH]; intros [|y ys]; simpl; auto.
Qed.

Lemma flat_map_singleton {A B} (f : A -> B) xs :
  flat_map (fun x => [f x]) xs = map f xs.
Proof. induction xs; simpl; f_equal; auto. Qed.

Lemma conv_layers_length sts :
  length (flat_map conv_layers sts) = 2 * length sts.
Proof.
  induction sts as [|[[[[f k] a] d] s] sts IH]; simpl in *; [done|lia].
Qed.

(** Two descriptions of a graph are equal when they are equal entry by
    entry, node ids being compared as numbers. *)
Ltac same_sigs :=
  repeat match goal with
    | |- @eq nat _ _ => lia
    | |- @eq (list nat) (_ :: _) (_ :: _) => f_equal
    | |- @eq (_ * _) (_, _) (_, _) => f_equal
    | |- @eq (list _) (_ :: _) (_ :: _) => f_equal
    | |- @eq (list _) (_ ++ _) (_ ++ _) => f_equal
    | |- chain_sigs _ _ = chain_sigs _ _ => f_equal
    | |- _ => reflexivity
    end.

(** ** Topological order *)

Lemma topo_from_app i ns1 ns2 :
  topo_from i (ns1 ++ ns2)
  = topo_from i ns1 && topo_from (i + length ns1) ns2.
Proof.
  revert i. induction ns1 as [|n ns1 IH]; intros i; simpl.
  - by rewrite Nat.add_0_r.
  - rewrite IH, andb_assoc. do 2 f_equal. lia.
Qed.

Lemma topo_from_lookup i ns k n j :
  topo_from i ns = true -> ns !! k = Some n -> In j (n_inputs n) -> j < i + k.
Proof.
  revert i k. induction ns as [|n' ns IH]; intros i [|k] Ht Hk Hj; try done.
  - simpl in *. injection Hk as ->.
    apply andb_prop in Ht as [Hall _].
    rewrite forallb_forall in Hall. apply Hall, Nat.ltb_lt in Hj. lia.
  - simpl in *. apply andb_prop in Ht as [_ Ht].
    specialize (IH _ _ Ht Hk Hj). lia.
Qed.

Lemma topological_prefix g d k : topological (g ++ d) -> topological (g ++ take k d).
Proof.
  unfold topological. rewrite <- (take_drop k d) at 1.
  rewrite app_assoc, topo_from_app. by intros [H _]%andb_prop.
Qed.

Lemma edge_increasing g i j : topological g -> edge g i j -> i < j.
Proof.
  intros Ht (n & Hn & Hi). apply (topo_from_lookup 0 g j n i Ht Hn Hi).
Qed.

Lemma topological_acyclic g : topological g -> acyclic g.
Proof.
  intros Ht i Hc.
  assert (Hlt : forall a b, tc (edge g) a b -> a < b).
  { induction 1 as [a b Hab | a b c Hab _ IH].
    - by apply (edge_increasing g).
    - apply (edge_increasing g) in Hab; [lia | done]. }
  apply Hlt in Hc. lia.
Qed.

Lemma topological_snoc g l ins sh :
  topological g -> Forall (live g) ins ->
  topological (g ++ [{| n_layer := l; n_inputs := map t_id ins; n_shape := sh |}]).
Proof.
  unfold topological. intros Ht Hins.
  rewrite topo_from_app, Ht. simpl. rewrite andb_true_r.
  apply forallb_forall. intros j (t & <- & Ht')%in_map_iff.
  apply Nat.ltb_lt. rewrite Forall_forall in Hins.
  apply Hins. by apply list_elem_of_In.
Qed.

(** ** The logic of [safe] *)

Lemma safe_ret {A} E (Q : A -> Graph -> Prop) a g :
  Q a g -> safe E Q (ret a) g.
Proof.
  intros HQ. exists [], (OK a). by rewrite app_nil_r.
Qed.

Lemma safe_pure {A} E (r : result A) g :
  (forall e, r = Raise e -> E e) -> safe E (fun _ _ => True) (lift r) g.
Proof.
  intros HE. exists [], r. rewrite app_nil_r.
  split; [done|]. split; [done|]. destruct r; auto.
Qed.

Lemma safe_bind {A B} E (Q : A -> Graph -> Prop) (R : B -> Graph -> Prop)
  (m : M A) (k : A -> M B) g :
  safe E Q m g ->
  (forall a g1, length g <= length g1 -> Q a g1 -> safe E R (k a) g1) ->
  safe E R (bind m k) g.
Proof.
  intros (d1 & r1 & H1 & Ht1 & Hr1) Hk.
  unfold safe, bind. rewrite H1. destruct r1 as [a|e].
  - assert (Hlen : length g <= length (g ++ d1)) by (rewrite length_app; lia).
    destruct (Hk a _ Hlen Hr1) as (d2 & r2 & H2 & Ht2 & Hr2).
    exists (d1 ++ d2), r2. rewrite app_assoc. auto.
  - by exists d1, (Raise e).
Qed.

Lemma safe_for_each {A} E (body : A -> Tensor -> M Tensor) xs :
  (forall x s g, live g s -> safe E (fun t g' => live g' t) (body x s) g) ->
  forall s g, live g s -> safe E (fun t g' => live g' t) (for_each xs body s) g.
Proof.
  intros Hbody. induction xs as [|x xs IH]; intros s g Hs; simpl.
  - by apply safe_ret.
  - eapply safe_bind; [by apply Hbody|]. intros s' g1 _ Hs'. by apply IH.
Qed.

Lemma lib_result_raise {A} (r : Lib A) e :
  lib_result r = Raise e -> exists msg, e = LibraryError msg.
Proof. destruct r; simpl; [done|]. intros [= <-]. eauto. Qed.

Lemma shape_get_raise sh i e :
  shape_get sh i = Raise e -> exists msg, e = IndexError msg.
Proof.
  unfold shape_get. destruct (_ && _); [destruct (sh !! _)|];
    try done; intros [= <-]; eauto.
Qed.

Lemma dim_mul_raise a b e :
  dim_mul a b = Raise e -> exists msg, e = TypeError msg.
Proof. destruct a, b; simpl; try done; intros [= <-]; eauto. Qed.

Lemma dim_floordiv_raise a b e :
  dim_floordiv a b = Raise e -> exists msg, e = TypeError msg.
Proof. destruct a; simpl; try done; intros [= <-]; eauto. Qed.

Lemma getitem_raise {V} (d : gmap string V) key e :
  getitem d key = Raise e -> e = KeyError key /\ d !! key = None.
Proof. unfold getitem. destruct (d !! key); [done|]. by intros [= <-]. Qed.

(** ** Moving a run up the graph *)

Lemma equivariant_ret {A} (sh : nat -> A -> A) a k :
  equivariant sh (ret a) (ret (sh k a)) k.
Proof. by intros b d Hb. Qed.

Lemma equivariant_lift {A} (r : result A) k :
  equivariant (fun _ a => a) (lift r) (lift r) k.
Proof. intros b d Hb. unfold lift. simpl. by destruct r. Qed.

Lemma equivariant_bind {A B} (shA : nat -> A -> A) (shB : nat -> B -> B)
  (m1 m2 : M A) (f1 f2 : A -> M B) k :
  equivariant shA m1 m2 k ->
  (forall a, equivariant shB (f1 a) (f2 (shA k a)) k) ->
  equivariant shB (bind m1 f1) (bind m2 f2) k.
Proof.
  intros Hm Hf b d Hb. unfold bind. rewrite (Hm b d Hb).
  destruct (m1 d) as [d1 [a|e]]; simpl; [|done]. by apply Hf.
Qed.

Lemma equivariant_for_each {A} (body : A -> Tensor -> M Tensor) xs k :
  (forall x s, equivariant shift_tensor (body x s)
                 (body x (shift_tensor k s)) k) ->
  forall s, equivariant shift_tensor (for_each xs body s)
              (for_each xs body (shift_tensor k s)) k.
Proof.
  intros Hbody. induction xs as [|x xs IH]; intros s; simpl.
  - apply equivariant_ret.
  - eapply equivariant_bind; [apply Hbody | apply IH].
Qed.

Section ModelFacts.

Variable parse : string -> Lib (list PyVal).
Variable infer : Layer -> list Shape -> Lib Shape.

Lemma call_ok l ins g g' t :
  call infer l ins g = (g', OK t) ->
  exists n,
    g' = g ++ [n] /\ sig n = (l, map t_id ins)
    /\ infer l (map t_shape ins) = Returns (n_shape n)
    /\ t = {| t_id := length g; t_shape := n_shape n |}.
Proof.
  unfold call. destruct (infer l (map t_shape ins)) as [sh|msg]; [|done].
  intros [= <- <-]. by eexists {| n_layer := l |}.
Qed.

Lemma produced_last g n :
  produced (g ++ [n]) {| t_id := length g; t_shape := n_shape n |}.
Proof.
  exists n. split; [|done]. cbn [t_id].
  by rewrite lookup_app_r, Nat.sub_diag.
Qed.

Lemma chained_call l net : chained (call infer l [net]) net [l].
Proof.
  intros g g' net' Hlen Hp (n & -> & Hs & _ & ->)%call_ok.
  exists [n]. split; [done|]. simpl. rewrite Hs.
  split; [done|]. split; [lia|]. apply produced_last.
Qed.

Lemma chained_cnn_stage st net :
  chained (cnn_stage infer st net) net (conv_layers st).
Proof.
  destruct st as [[[[f k] a] d] s]. unfold cnn_stage, conv_layers.
  apply (chained_bind _ _ _ [_] [_]); [|intros net1]; apply chained_call.
Qed.

Lemma chained_rnn_stage rnn flags i net :
  chained (rnn_stage infer rnn flags i net) net [birnn rnn flags].
Proof. apply chained_call. Qed.

Lemma chained_dense_stage st net :
  chained (dense_stage infer st net) net [dense_layer st].
Proof. destruct st. apply chained_call. Qed.

Lemma model_ok flags g g' m :
  model parse infer flags g = (g', OK m) ->
  exists r d,
    reads parse flags r
    /\ g' = g ++ d
    /\ map sig d = arch_of (length g) flags r
    /\ n_shape <$> d !! (2 + 2 * length (stages r)) = Some (r_conv_shape r)
    /\ n_shape <$> d !! length (trunk_of flags r) = Some (r_rnn_shape r)
    /\ t_id (m_inputs m) = length g /\ produced g' (m_inputs m)
    /\ S (t_id (m_outputs m)) = length g' /\ produced g' (m_outputs m).
Proof.
  unfold model. intros H.
  apply bind_ok in H as (g0 & [] & H0 & H).
  assert (g0 = g) as ->.
  { destruct (negb _); by apply ret_ok in H0 as [-> _]. }
  clear H0.
  apply bind_ok in H as (? & rnn & [-> Hrnn]%lift_ok & H).
  apply bind_ok in H as (? & t0 & (n0 & -> & Hs0 & _ & ->)%call_ok & H).
  apply bind_ok in H as (? & t1 & (n1 & -> & Hs1 & _ & ->)%call_ok & H).
  apply bind_ok in H as (? & t2 & (n2 & -> & Hs2 & _ & ->)%call_ok & H).
  apply bind_ok in H as (? & l1 & [-> Hl1%lib_result_ok]%lift_ok & H).
  apply bind_ok in H as (? & l2 & [-> Hl2%lib_result_ok]%lift_ok & H).
  apply bind_ok in H as (? & l3 & [-> Hl3%lib_result_ok]%lift_ok & H).
  apply bind_ok in H as (? & l4 & [-> Hl4%lib_result_ok]%lift_ok & H).
  apply bind_ok in H as (? & l5 & [-> Hl5%lib_result_ok]%lift_ok & H).
  apply bind_ok in H as (g3 & t3 & Hconv & H).
  eapply (chained_for_each _ conv_layers) in Hconv
      as (dconv & -> & Hsconv & Hid3 & Hp3);
    [ | apply chained_cnn_stage | by rewrite length_app, Nat.add_comm
      | apply produced_last ].
  apply bind_ok in H as (? & d2 & [-> Hd2]%lift_ok & H).
  apply bind_ok in H as (? & d3 & [-> Hd3]%lift_ok & H).
  apply bind_ok in H as (? & feats & [-> Hfeats]%lift_ok & H).
  apply bind_ok in H as (? & t4 & (n4 & -> & Hs4 & _ & ->)%call_ok & H).
  apply bind_ok in H as (g5 & t5 & Hrnn_loop & H).
  eapply (chained_for_each _ (fun _ => [birnn rnn flags])) in Hrnn_loop
      as (drnn & -> & Hsrnn & Hid5 & Hp5);
    [ | intros; apply chained_rnn_stage | by rewrite length_app, Nat.add_comm
      | apply produced_last ].
  apply bind_ok in H as (? & fdim & [-> Hfdim]%lift_ok & H).
  apply bind_ok in H as (? & d1 & [-> Hd1]%lift_ok & H).
  apply bind_ok in H as (? & mid & [-> Hmid]%lift_ok & H).
  apply bind_ok in H as (? & t6 & (n6 & -> & Hs6 & _ & ->)%call_ok & H).
  apply bind_ok in H as (? & t7 & (n7 & -> & Hs7 & _ & ->)%call_ok & H).
  apply bind_ok in H as (? & t8 & (n8 & -> & Hs8 & _ & ->)%call_ok & H).
  apply bind_ok in H as (? & t9 & (n9 & -> & Hs9 & _ & ->)%call_ok & H).
  apply bind_ok in H as (? & t10 & (n10 & -> & Hs10 & _ & ->)%call_ok & H).
  apply bind_ok in H as (? & t11 & (n11 & -> & Hs11 & _ & ->)%call_ok & H).
  apply bind_ok in H as (? & l6 & [-> Hl6%lib_result_ok]%lift_ok & H).
  apply bind_ok in H as (? & l7 & [-> Hl7%lib_result_ok]%lift_ok & H).
  apply bind_ok in H as (g12 & t12 & Hfin & H).
  eapply (chained_for_each _ (fun st => [dense_layer st])) in Hfin
      as (dfin & -> & Hsfin & Hid12 & Hp12);
    [ | intros; apply chained_dense_stage | by rewrite length_app, Nat.add_comm
      | apply produced_last ].
  apply bind_ok in H as (? & t13 & (n13 & -> & Hs13 & _ & ->)%call_ok & H).
  apply ret_ok in H as [-> ->].
  destruct d2 as [x2|], d3 as [x3|]; try discriminate Hfeats.
  injection Hfeats as <-.
  destruct d1 as [tlen|]; [|discriminate Hmid]. injection Hmid as <-.
  unfold getitem in Hrnn.
  destruct (rnn_types !! rnn_type flags) as [rnn'|] eqn:Hlook; [|done].
  injection Hrnn as ->.
  exists {| r_rnn := rnn; r_filters := l1; r_kernel_sizes := l2;
            r_activations := l3; r_dilation_rates := l4; r_strides := l5;
            r_units := l6; r_acts := l7; r_conv_shape := t_shape t3;
            r_d2 := x2; r_d3 := x3; r_rnn_shape := t_shape t5;
            r_feature_dim := fdim; r_time := tlen |}.
  eexists. split; [by repeat split|].
  split; [rewrite <- !app_assoc; reflexivity|].
  unfold arch_of, trunk_of, stages, finals; cbn [r_rnn r_filters
    r_kernel_sizes r_activations r_dilation_rates r_strides r_units r_acts
    r_conv_shape r_d2 r_d3 r_rnn_shape r_feature_dim r_time].
  set (sts := zip5 l1 l2 l3 l4 l5) in *.
  set (fin := zip2 l6 l7) in *.
  rewrite repeat_range in Hsrnn, Hid5.
  rewrite flat_map_singleton in Hsfin, Hid12.
  assert (Lc : length dconv = length (flat_map conv_layers sts)).
  { by rewrite <- (length_map sig), Hsconv, chain_sigs_length. }
  assert (Lr : length drnn = Z.to_nat (rnn_layers flags)).
  { by rewrite <- (length_map sig), Hsrnn, chain_sigs_length, repeat_length. }
  assert (Lf : length dfin = length fin).
  { by rewrite <- (length_map sig), Hsfin, chain_sigs_length, length_map. }
  cbn [t_id] in Hsconv, Hid3, Hsrnn, Hid5, Hsfin, Hid12.
  rewrite ?length_app, ?repeat_length, ?length_map in Hid3, Hid5, Hid12.
  cbn [length] in Hid3, Hid5, Hid12.
  split.
  { rewrite !map_app, Hsconv, Hsrnn, Hsfin. cbn [map].
    rewrite Hs0, Hs1, Hs2, Hs4, Hs6, Hs7, Hs8, Hs9, Hs10, Hs11, Hs13.
    cbn [map t_id].
    unfold arch, trunk_layers, tail_layers, attention.
    repeat (rewrite ?chain_sigs_app; cbn [app chain_sigs];
            rewrite <- ?app_assoc; progress cbn [app chain_sigs]).
    rewrite Hid3, Hid5, Hid12.
    rewrite ?length_app, ?repeat_length, ?length_map, ?Lc, ?Lr, ?Lf.
    cbn [length].
    same_sigs.
    all: repeat (rewrite ?length_app, ?repeat_length, ?length_map;
                 progress cbn [length]).
    all: rewrite ?length_app, ?repeat_length, ?length_map, ?Lc, ?Lr, ?Lf;
      lia. }
  assert (Hall3 : forall t, produced ((((g ++ [n0]) ++ [n1]) ++ [n2]) ++ dconv) t ->
    produced (g ++ [n0] ++ [n1] ++ [n2] ++ dconv ++ [n4] ++ drnn ++ [n6]
              ++ [n7] ++ [n8] ++ [n9] ++ [n10] ++ [n11] ++ dfin ++ [n13]) t).
  { intros t Ht. rewrite !app_assoc. by do 10 apply produced_app. }
  assert (Hall5 : forall t,
    produced ((((((g ++ [n0]) ++ [n1]) ++ [n2]) ++ dconv) ++ [n4]) ++ drnn) t ->
    produced (g ++ [n0] ++ [n1] ++ [n2] ++ dconv ++ [n4] ++ drnn ++ [n6]
              ++ [n7] ++ [n8] ++ [n9] ++ [n10] ++ [n11] ++ dfin ++ [n13]) t).
  { intros t Ht. rewrite !app_assoc. by do 8 apply produced_app. }
  split.
  { apply (produced_lookup g _ t3); [apply Hall3, Hp3|].
    rewrite Hid3, conv_layers_length. lia. }
  split.
  { apply (produced_lookup g _ t5); [apply Hall5, Hp5|].
    rewrite Hid5. unfold trunk_layers.
    rewrite !length_app, repeat_length. cbn [length]. lia. }
  cbn [m_inputs m_outputs t_id].
  split; [done|]. split.
  { do 13 apply produced_app. apply produced_last. }
  split.
  { by rewrite (length_app _ [n13]), Nat.add_comm. }
  apply produced_last.
Qed.




(** ** Every run keeps the graph ordered *)

Lemma safe_call E l ins g :
  Forall (live g) ins -> (forall msg, E (LibraryError msg)) ->
  safe E (fun t g' => live g' t) (call infer l ins) g.
Proof.
  intros Hins HE. unfold call.
  destruct (infer l (map t_shape ins)) as [sh|msg].
  - eexists [_], (OK _). split; [reflexivity|].
    split; [intros Ht; by apply topological_snoc|].
    unfold live. rewrite length_app. simpl. lia.
  - exists [], (Raise (LibraryError msg)). by rewrite app_nil_r.
Qed.

Ltac live_tac :=
  repeat constructor; unfold live in *; simpl in *; lia.

Ltac pure_raises :=
  let e := fresh "e" in
  let He := fresh "He" in
  intros e He;
  first [ apply lib_result_raise in He as [? ->]
        | apply shape_get_raise in He as [? ->]
        | apply dim_mul_raise in He as [? ->]
        | apply dim_floordiv_raise in He as [? ->]
        | apply getitem_raise in He as [-> ?] ];
  by simpl.

Ltac safe_step :=
  lazymatch goal with
  | |- safe _ _ (bind (call _ _ _) _) _ =>
      eapply safe_bind;
      [ apply safe_call; [live_tac | done] | intros ? ? ? ? ]
  | |- safe _ _ (bind (lift _) _) _ =>
      eapply safe_bind; [ apply safe_pure; pure_raises | intros ? ? ? _ ]
  | |- safe _ _ (call _ _ _) _ => apply safe_call; [live_tac | done]
  end.

Lemma safe_cnn_stage flags st s g :
  live g s ->
  safe (raised flags) (fun t g' => live g' t) (cnn_stage infer st s) g.
Proof.
  intros Hs. destruct st as [[[[f k] a] d] st]. unfold cnn_stage.
  safe_step. safe_step.
Qed.

Lemma model_safe flags g :
  safe (raised flags) (fun _ _ => True) (model parse infer flags) g.
Proof.
  unfold model.
  eapply safe_bind.
  { instantiate (1 := fun _ _ => True). by destruct (negb _); apply safe_ret. }
  intros [] g0 _ _.
  do 9 safe_step.
  eapply safe_bind.
  { apply safe_for_each; [intros; by apply safe_cnn_stage | live_tac]. }
  intros ? ? ? ?. cbv zeta.
  do 4 safe_step.
  eapply safe_bind.
  { apply safe_for_each; [intros; unfold rnn_stage; safe_step | live_tac]. }
  intros ? ? ? ?.
  do 11 safe_step.
  eapply safe_bind.
  { apply safe_for_each;
      [intros [? ?] ? ? ?; unfold dense_stage; safe_step | live_tac]. }
  intros ? ? ? ?.
  safe_step. by apply safe_ret.
Qed.

(** C5: whatever the flags, and whether the call returns or raises, the
    nodes are added one after the other and each is applied to nodes built
    before it only: every graph on the way is topologically ordered, hence
    without a cycle. *)
Theorem model_acyclic flags g :
  topological g -> stays_acyclic g (model parse infer flags g).1.
Proof.
  intros Ht. destruct (model_safe flags g) as (d & r & -> & Htd & _).
  exists d. split; [done|]. intros k.
  assert (topological (g ++ take k d)) by by apply topological_prefix, Htd.
  split; [done | by apply topological_acyclic].
Qed.

(** ** The check of the RNN type *)

Lemma rnn_types_unsupported key :
  key <> "lstm" -> key <> "gru" -> rnn_types !! key = None.
Proof.
  intros H1 H2. unfold rnn_types.
  rewrite lookup_insert_ne by done. by apply lookup_singleton_ne.
Qed.

Lemma rnn_types_supported key :
  key = "lstm" \/ key = "gru" -> is_Some (rnn_types !! key).
Proof. intros [-> | ->]; by eexists. Qed.

(** C8: when [rnn_type] is neither 'lstm' nor 'gru' the call ends, before
    any layer is built, with the KeyError of the dictionary lookup; no
    call ever ends with the ValueError that the check builds; and with
    'lstm' or 'gru' no call ends with a KeyError. *)
Theorem model_rnn_type_check flags g :
  (rnn_type flags <> "lstm" -> rnn_type flags <> "gru" ->
   model parse infer flags g = (g, Raise (KeyError (rnn_type flags))))
  /\ (forall args, (model parse infer flags g).2 <> Raise (ValueError args))
  /\ (rnn_type flags = "lstm" \/ rnn_type flags = "gru" ->
      forall key, (model parse infer flags g).2 <> Raise (KeyError key)).
Proof.
  split; [|split].
  - intros H1 H2. unfold model, bind.
    assert (Hpre : forall m : M unit,
      (m = ret tt) -> m g = (g, OK tt)) by (by intros m ->).
    rewrite (Hpre _) by (by destruct (negb _)).
    unfold lift, getitem. by rewrite rnn_types_unsupported.
  - intros args Hr.
    destruct (model_safe flags g) as (d & r & Hrun & _ & HE).
    rewrite Hrun in Hr. simpl in Hr. by subst r.
  - intros Hin key Hr.
    destruct (model_safe flags g) as (d & r & Hrun & _ & HE).
    rewrite Hrun in Hr. simpl in Hr. subst r.
    destruct HE as [-> Hnone]. apply rnn_types_supported in Hin.
    rewrite Hnone in Hin. by destruct Hin.
Qed.

(** ** Two calls with the same flags *)

Lemma equivariant_call l ins k :
  equivariant shift_tensor (call infer l ins)
    (call infer l (map (shift_tensor k) ins)) k.
Proof.
  intros b d Hb. unfold call.
  rewrite !map_map. cbn [t_shape shift_tensor].
  change (map (fun x => t_shape x) ins) with (map t_shape ins).
  destruct (infer l (map t_shape ins)) as [sh|msg]; simpl; [|done].
  rewrite map_app, app_assoc, length_app, length_map, Hb. simpl.
  unfold shift_node, shift_tensor. simpl. by rewrite map_map.
Qed.

Ltac equiv_step :=
  lazymatch goal with
  | |- equivariant _ (bind (call _ ?l ?ins) _) _ ?k =>
      eapply (equivariant_bind shift_tensor);
      [ apply (equivariant_call l ins k) | intros ? ]
  | |- equivariant _ (bind (lift _) _) _ _ =>
      eapply (equivariant_bind (fun _ a => a));
      [ apply equivariant_lift | intros ? ]
  | |- equivariant _ (call _ ?l ?ins) _ ?k =>
      apply (equivariant_call l ins k)
  end.

Lemma model_equivariant flags k :
  equivariant shift_model (model parse infer flags)
    (model parse infer flags) k.
Proof.
  unfold model.
  eapply (equivariant_bind (fun _ a => a)).
  { destruct (negb _); apply (equivariant_ret (fun _ a => a)). }
  intros [].
  do 9 equiv_step.
  eapply (equivariant_bind shift_tensor).
  { apply equivariant_for_each. intros [[[[? ?] ?] ?] ?] ?.
    unfold cnn_stage. equiv_step. equiv_step. }
  intros ?. cbv zeta.
  do 4 equiv_step.
  eapply (equivariant_bind shift_tensor).
  { apply equivariant_for_each. intros ? ?. unfold rnn_stage. equiv_step. }
  intros ?.
  do 11 equiv_step.
  eapply (equivariant_bind shift_tensor).
  { apply equivariant_for_each. intros [? ?] ?.
    unfold dense_stage. equiv_step. }
  intros ?.
  equiv_step. apply (equivariant_ret shift_model).
Qed.

Lemma model_from g flags :
  model parse infer flags g
  = (g ++ map (shift_node (length g)) (model parse infer flags []).1,
     shift_result shift_model (length g) (model parse infer flags []).2).
Proof.
  pose proof (model_equivariant flags (length g) g [] eq_refl) as H.
  simpl in H. by rewrite app_nil_r in H.
Qed.

Lemma shift_node_layer k d :
  map n_layer (map (shift_node k) d) = map n_layer d.
Proof. by rewrite map_map. Qed.

Lemma shift_node_shape k d :
  map n_shape (map (shift_node k) d) = map n_shape d.
Proof. by rewrite map_map. Qed.

(** C7: two calls with the same flags, on whatever graphs they start, add
    the same nodes (layers with their hyperparameters, wiring, shapes) and
    end the same way, up to the ids the nodes get. *)
Theorem model_deterministic flags g1 g2 :
  same_construction g1 g2 (model parse infer flags g1)
    (model parse infer flags g2).
Proof.
  exists (model parse infer flags []).1, (model parse infer flags []).2.
  split; apply model_from.
Qed.

(** In particular the two calls add the same layers, with the same
    hyperparameters and output shapes, in the same order. *)
Corollary model_same_layers flags g1 g2 :
  let new1 := drop (length g1) (model parse infer flags g1).1 in
  let new2 := drop (length g2) (model parse infer flags g2).1 in
  map n_layer new1 = map n_layer new2 /\ map n_shape new1 = map n_shape new2.
Proof.
  simpl. rewrite (model_from g1), (model_from g2). simpl.
  rewrite !drop_app_length.
  by rewrite !shift_node_layer, !shift_node_shape.
Qed.

(** ** The architecture *)

Lemma arch_layers b flags r :
  map fst (arch_of b flags r) = layers_of flags r.
Proof.
  unfold arch_of, arch, layers_of, trunk_of, trunk_layers, tail_layers,
    attention.
  rewrite !map_app, !chain_sigs_layers. cbn [map fst app].
  by rewrite <- !app_assoc.
Qed.

Lemma sig_layers (d : Graph) : map fst (map sig d) = map n_layer d.
Proof. by rewrite map_map. Qed.


Lemma map_lookup {A B} (f : A -> B) (l : list A) i :
  map f l !! i = f <$> l !! i.
Proof. revert i. induction l; intros [|i]; simpl; auto. Qed.

Lemma lookup_S {A} (x : A) l i : (x :: l) !! S i = l !! i.
Proof. done. Qed.

Lemma lookup_new (g d : Graph) i : (g ++ d) !! (length g + i) = d !! i.
Proof. rewrite lookup_app_r by lia. f_equal. lia. Qed.

Lemma node_sig_new (g d : Graph) i sgs :
  map sig d = sgs -> node_sig (g ++ d) (length g + i) = sgs !! i.
Proof.
  intros <-. unfold node_sig. by rewrite lookup_new, map_lookup.
Qed.

Lemma arch_lookup_input b flags r :
  arch_of b flags r !! 0 = Some (input_layer flags, []).
Proof. done. Qed.

Lemma arch_lookup_speech b flags r :
  arch_of b flags r !! 1 = Some (SpeechFeatures (speech_params flags), [b]).
Proof. done. Qed.

Lemma arch_lookup_attention b flags r k :
  k < 5 ->
  arch_of b flags r !! (S (length (trunk_of flags r)) + k)
  = attention (b + length (trunk_of flags r)) (dim_val (r_feature_dim r))
      (r_time r / 2) !! k.
Proof.
  intros Hk. unfold arch_of, arch. fold (trunk_of flags r).
  cbn [app]. rewrite Nat.add_succ_l, lookup_S, lookup_app_r
    by (rewrite chain_sigs_length; lia).
  rewrite chain_sigs_length, lookup_app_l by (simpl; lia).
  f_equal. lia.
Qed.


Lemma chain_sigs_lookup prev ls i l :
  ls !! i = Some l -> chain_sigs prev ls !! i = Some (l, [prev + i]).
Proof.
  revert prev i. induction ls as [|l' ls IH]; intros prev [|i] H; try done.
  - injection H as ->. simpl. by rewrite Nat.add_0_r.
  - simpl in *. rewrite (IH _ _ H). do 3 f_equal. lia.
Qed.

Lemma trunk_last flags r :
  trunk_of flags r !! (length (trunk_of flags r) - 1)
  = Some (if (0 <? rnn_layers flags)%Z then birnn (r_rnn r) flags
          else Reshape [(-1)%Z; (r_d2 r * r_d3 r)%Z]).
Proof.
  unfold trunk_of, trunk_layers.
  destruct (Z.ltb_spec 0 (rnn_layers flags)) as [Hn|Hn].
  - destruct (Z.to_nat (rnn_layers flags)) as [|n] eqn:E; [lia|].
    cbn [repeat]. rewrite repeat_cons, !app_assoc.
    apply list_lookup_middle. rewrite !length_app. cbn [length]. lia.
  - replace (Z.to_nat (rnn_layers flags)) with 0 by lia.
    cbn [repeat]. rewrite app_nil_r, !app_assoc.
    apply list_lookup_middle. rewrite !length_app. cbn [length]. lia.
Qed.


Lemma trunk_length_pos flags r : 0 < length (trunk_of flags r).
Proof. unfold trunk_of, trunk_layers. simpl. lia. Qed.

Lemma arch_lookup_trunk b flags r i l :
  trunk_of flags r !! i = Some l ->
  arch_of b flags r !! S i = Some (l, [b + i]).
Proof.
  intros H. unfold arch_of, arch. fold (trunk_of flags r). cbn [app].
  rewrite lookup_S.
  apply lookup_app_l_Some, chain_sigs_lookup, H.
Qed.

(** The architecture ends with the output layer. *)
Lemma arch_snoc b flags r :
  exists pre i,
    arch_of b flags r = pre ++ [(Dense (label_count flags) VNone, [i])].
Proof.
  unfold arch_of, arch, tail_layers.
  rewrite !app_assoc, chain_sigs_app. cbn [chain_sigs].
  rewrite !app_assoc. eauto.
Qed.

Lemma model_output_dense flags g g' m :
  model parse infer flags g = (g', OK m) -> output_logits flags g' m.
Proof.
  intros (r & d & _ & -> & Hs & _ & _ & _ & _ & Hout & _)%model_ok.
  split; [|done].
  destruct (arch_snoc (length g) flags r) as (pre & i & Hpre).
  assert (Hlen : length d = S (length pre)).
  { rewrite <- (length_map sig), Hs, Hpre, length_app. simpl. lia. }
  rewrite length_app in Hout.
  replace (t_id (m_outputs m)) with (length g + length pre) by lia.
  rewrite lookup_new.
  assert (Hn : map sig d !! length pre
               = Some (Dense (label_count flags) VNone, [i])).
  { rewrite Hs, Hpre. by apply list_lookup_middle. }
  rewrite map_lookup in Hn.
  destruct (d !! length pre) as [n|]; [|done].
  unfold sig in Hn. simpl in Hn. injection Hn as Hl _. simpl. by rewrite Hl.
Qed.

(** ** Counting the layers of the architecture *)

Lemma filter_none (f : Layer -> bool) ls :
  (forall l, In l ls -> f l = false) -> List.filter f ls = [].
Proof.
  induction ls as [|l ls IH]; intros H; [done|]. simpl.
  rewrite (H l) by (by left). apply IH. intros l' Hl'. apply H. by right.
Qed.

Lemma filter_all (f : Layer -> bool) ls :
  (forall l, In l ls -> f l = true) -> List.filter f ls = ls.
Proof.
  induction ls as [|l ls IH]; intros H; [done|]. simpl.
  rewrite (H l) by (by left). f_equal. apply IH. intros l' Hl'.
  apply H. by right.
Qed.

Lemma in_conv_layers l sts :
  In l (flat_map conv_layers sts) ->
  (exists f k a d s, l = Conv2D f k a d s "same") \/ l = BatchNormalization.
Proof.
  intros ([[[[f k] a] d] s] & _ & Hl)%in_flat_map. simpl in Hl.
  destruct Hl as [<-|[<-|[]]]; [left; eauto 6 | by right].
Qed.

Lemma in_dense_layers l fin :
  In l (map dense_layer fin) -> exists u a, l = Dense u a.
Proof. intros ([u a] & <- & _)%in_map_iff. simpl. eauto. Qed.

Lemma count_conv2d_stages sts :
  length (List.filter is_conv2d (flat_map conv_layers sts)) = length sts.
Proof.
  induction sts as [|[[[[f k] a] d] s] sts IH]; simpl; [done|].
  by rewrite IH.
Qed.

Lemma count_batchnorm_stages sts :
  length (List.filter is_batchnorm (flat_map conv_layers sts)) = length sts.
Proof.
  induction sts as [|[[[[f k] a] d] s] sts IH]; simpl; [done|].
  by rewrite IH.
Qed.

Lemma count_conv2d flags r :
  length (List.filter is_conv2d (layers_of flags r)) = length (stages r).
Proof.
  unfold layers_of. rewrite !List.filter_app, !length_app.
  rewrite count_conv2d_stages.
  rewrite (filter_none _ (repeat _ _))
    by (by intros l ->%repeat_spec).
  rewrite (filter_none _ (map _ _))
    by (by intros l (u & a & ->)%in_dense_layers).
  simpl. lia.
Qed.

Lemma count_batchnorm flags r :
  length (List.filter is_batchnorm (layers_of flags r)) = length (stages r).
Proof.
  unfold layers_of. rewrite !List.filter_app, !length_app.
  rewrite count_batchnorm_stages.
  rewrite (filter_none _ (repeat _ _))
    by (by intros l ->%repeat_spec).
  rewrite (filter_none _ (map _ _))
    by (by intros l (u & a & ->)%in_dense_layers).
  simpl. lia.
Qed.

Lemma count_dense flags r :
  length (List.filter is_dense (layers_of flags r)) = length (finals r) + 2.
Proof.
  unfold layers_of. rewrite !List.filter_app, !length_app.
  rewrite (filter_none _ (flat_map _ _))
    by (by intros l [(f & k & a & d & s & ->)| ->]%in_conv_layers).
  rewrite (filter_none _ (repeat _ _))
    by (by intros l ->%repeat_spec).
  rewrite (filter_all _ (map _ _))
    by (by intros l (u & a & ->)%in_dense_layers).
  rewrite length_map. simpl. lia.
Qed.

Lemma count_speech_features flags r :
  length (List.filter is_speech_features (layers_of flags r)) = 1.
Proof.
  unfold layers_of. rewrite !List.filter_app, !length_app.
  rewrite (filter_none _ (flat_map _ _))
    by (by intros l [(f & k & a & d & s & ->)| ->]%in_conv_layers).
  rewrite (filter_none _ (repeat _ _))
    by (by intros l ->%repeat_spec).
  rewrite (filter_none _ (map _ _))
    by (by intros l (u & a & ->)%in_dense_layers).
  done.
Qed.

(** C9: a built graph holds as many Conv2D and BatchNormalization layers
    as the shortest of the five parsed CNN lists is long, and as many
    hidden Dense layers as the shorter of the parsed [units2] and [act2]
    lists (next to the query projection and the output layer): what the
    longer lists hold beyond that is dropped without an error. *)
Theorem model_stage_counts flags g g' m :
  model parse infer flags g = (g', OK m) ->
  stage_counts parse flags g g'.
Proof.
  intros (r & d & Hr & -> & Hs & _)%model_ok.
  destruct Hr as (_ & H1 & H2 & H3 & H4 & H5 & H6 & H7 & _).
  exists (r_filters r), (r_kernel_sizes r), (r_activations r),
    (r_dilation_rates r), (r_strides r), (r_units r), (r_acts r).
  do 7 (split; [done|]).
  rewrite drop_app_length. unfold count.
  rewrite <- sig_layers, Hs, arch_layers.
  rewrite count_conv2d, count_batchnorm, count_dense.
  unfold stages, finals. by rewrite zip5_length, zip2_length.
Qed.

(** C6: feature extraction is one [SpeechFeatures] layer, applied to the
    audio input; each of its twelve keyword arguments is the flag of that
    name, unchanged. *)
Theorem model_speech_features flags g g' m :
  model parse infer flags g = (g', OK m) ->
  speech_front_end flags g g'.
Proof.
  intros (r & d & _ & -> & Hs & _)%model_ok.
  exists (speech_params flags). split.
  { pose proof (node_sig_new g d 0 _ Hs) as H0.
    by rewrite Nat.add_0_r in H0. }
  split.
  { pose proof (node_sig_new g d 1 _ Hs) as H1.
    by rewrite Nat.add_1_r in H1. }
  split; [|by repeat split].
  rewrite drop_app_length. unfold count.
  by rewrite <- sig_layers, Hs, arch_layers, count_speech_features.
Qed.


(** C4: a successful call returns one model; its input is the [Input]
    layer built first, its output the [Dense] layer built last, and the
    only effect of the call is that nodes were added after those of the
    graph it started from. *)
Theorem model_returns_graph flags g g' m :
  model parse infer flags g = (g', OK m) ->
  (exists d, g' = g ++ d) /\ model_of flags g g' m.
Proof.
  intros H. destruct (model_output_dense _ _ _ _ H) as [Hdense _].
  apply model_ok in H
    as (r & d & _ & -> & Hs & _ & _ & Hin & Hpin & Hout & Hpout).
  split; [by exists d|]. split; [done|]. split.
  { pose proof (node_sig_new g d 0 _ Hs) as H0.
    by rewrite Nat.add_0_r in H0. }
  done.
Qed.

(** C10: the output of the returned model is the node built last, a
    [Dense] layer whose units are [flags.label_count] and which has no
    activation: nothing, and so no softmax, is applied after it. *)
Theorem model_output_is_logits flags g g' m :
  model parse infer flags g = (g', OK m) -> output_logits flags g' m.
Proof. apply model_output_dense. Qed.


End ModelFacts.

(** ** model_parameters *)

Section ArgparseFacts.

Import Argparse.

Variable py_int : string -> Lib PyVal.
Variable py_float : string -> Lib PyVal.










End ArgparseFacts.

(** * The embedding at work *)

Example model_default_run :
  model Example.parse Example.infer Example.flags []
  = (Example.graph, OK Example.keras_model).
Proof. vm_compute. reflexivity. Qed.

Example model_default_layers :
  map n_layer Example.graph
  = [ Input (VTuple [VInt 16000]) (VInt 100);
      SpeechFeatures (speech_params Example.flags);
      ExpandDims;
      Conv2D (VInt 10) (VTuple [VInt 5; VInt 1]) (VStr "relu")
        (VTuple [VInt 1; VInt 1]) (VTuple [VInt 1; VInt 1]) "same";
      BatchNormalization;
      Conv2D (VInt 1) (VTuple [VInt 5; VInt 1]) (VStr "relu")
        (VTuple [VInt 1; VInt 1]) (VTuple [VInt 1; VInt 1]) "same";
      BatchNormalization;
      Reshape [(-1)%Z; 20%Z];
      Bidirectional (Rnn LSTM (VInt 64) true true);
      Bidirectional (Rnn LSTM (VInt 64) true true);
      SliceTime 24;
      Dense (VInt 128) VNone;
      Dot [1%Z; 2%Z];
      Softmax "attSoftmax";
      Dot [1%Z; 1%Z];
      Dropout (VFloat (1 # 2));
      Dense (VInt 64) (VStr "relu");
      Dense (VInt 32) (VStr "linear");
      Dense (VInt 12) VNone ].
Proof. vm_compute. reflexivity. Qed.

Example model_default_wiring :
  map n_inputs Example.graph
  = [ []; [0]; [1]; [2]; [3]; [4]; [5]; [6]; [7]; [8];
      [9]; [10]; [11; 9]; [12]; [13; 9]; [14]; [15]; [16]; [17] ].
Proof. vm_compute. reflexivity. Qed.

Example model_gru_runs :
  (model Example.parse Example.infer
     (Example.flags_with "gru" 2 "10,1" "64,32") []).2
  = OK Example.keras_model.
Proof. vm_compute. reflexivity. Qed.

Example model_short_run :
  model Example.parse Example.infer Example.flags_short []
  = (Example.graph_short, OK Example.keras_model_short).
Proof. vm_compute. reflexivity. Qed.

Example model_bad_filters :
  (model Example.parse Example.infer
     (Example.flags_with "lstm" 2 "oops" "64,32") []).2
  = Raise (LibraryError "malformed node or string").
Proof. vm_compute. reflexivity. Qed.

(** Without recurrent layers the attention head sits on the reshaped output
    of the convolutions. *)
Example model_without_recurrent_layers :
  let run := model Example.parse Example.infer
               (Example.flags_with "lstm" 0 "10,1" "64,32") [] in
  n_layer <$> run.1 !! 7 = Some (Reshape [(-1)%Z; 20%Z])
  /\ node_sig run.1 8 = Some (SliceTime 24, [7])
  /\ node_sig run.1 9 = Some (Dense (VInt 20) VNone, [8])
  /\ node_sig run.1 10 = Some (Dot [1%Z; 2%Z], [9; 7])
  /\ node_sig run.1 12 = Some (Dot [1%Z; 1%Z], [11; 7])
  /\ length run.1 = 17.
Proof. vm_compute. by repeat split. Qed.

Example rnn_type_help :
  Argparse.help <$> Example.parser !! 6
  = Some "RNN type: it can be rnn or lstm".
Proof. reflexivity. Qed.

Example parse_args_defaults :
  Argparse.parse_args_empty Example.py_int Example.py_float Example.parser
  = OK (list_to_map Example.namespace).
Proof. vm_compute. reflexivity. Qed.

Example add_argument_twice :
  (Argparse.model_parameters Example.parser).2
  = Raise (ArgumentError "--cnn_filters").
Proof. vm_compute. reflexivity. Qed.

(** ** The theorems at concrete inputs *)





Lemma model_returns_graph_witness :
  model Example.parse Example.infer Example.flags []
  = (Example.graph, OK Example.keras_model)
  /\ (exists d, Example.graph = [] ++ d)
  /\ model_of Example.flags [] Example.graph Example.keras_model.
Proof.
  split; [vm_compute; reflexivity|].
  apply (model_returns_graph Example.parse Example.infer Example.flags []
           Example.graph Example.keras_model).
  vm_compute. reflexivity.
Defined.

Lemma model_acyclic_witness :
  topological []
  /\ stays_acyclic []
       (model Example.parse Example.infer Example.flags []).1.
Proof.
  split; [reflexivity|].
  apply (model_acyclic Example.parse Example.infer Example.flags []).
  reflexivity.
Defined.

Lemma model_speech_features_witness :
  model Example.parse Example.infer Example.flags []
  = (Example.graph, OK Example.keras_model)
  /\ speech_front_end Example.flags [] Example.graph.
Proof.
  split; [vm_compute; reflexivity|].
  apply (model_speech_features Example.parse Example.infer Example.flags []
           Example.graph Example.keras_model).
  vm_compute. reflexivity.
Defined.

Lemma model_rnn_type_check_witness :
  "rnn" <> "lstm" /\ "rnn" <> "gru"
  /\ model Example.parse Example.infer
       (Example.flags_with "rnn" 2 "10,1" "64,32") []
     = ([], Raise (KeyError "rnn")).
Proof.
  split; [discriminate|]. split; [discriminate|].
  apply (proj1 (model_rnn_type_check Example.parse Example.infer
                  (Example.flags_with "rnn" 2 "10,1" "64,32") []));
    discriminate.
Defined.

Lemma model_stage_counts_witness :
  model Example.parse Example.infer Example.flags_short []
  = (Example.graph_short, OK Example.keras_model_short)
  /\ stage_counts Example.parse Example.flags_short [] Example.graph_short.
Proof.
  split; [vm_compute; reflexivity|].
  apply (model_stage_counts Example.parse Example.infer Example.flags_short []
           Example.graph_short Example.keras_model_short).
  vm_compute. reflexivity.
Defined.

Lemma model_output_is_logits_witness :
  model Example.parse Example.infer Example.flags []
  = (Example.graph, OK Example.keras_model)
  /\ output_logits Example.flags Example.graph Example.keras_model.
Proof.
  split; [vm_compute; reflexivity|].
  apply (model_output_is_logits Example.parse Example.infer Example.flags []
           Example.graph Example.keras_model).
  vm_compute. reflexivity.
Defined.

(** * Further properties of the module *)

(** ** The edges of the graph construction *)

Lemma shape_get_lookup (sh : Shape) (i : nat) d :
  shape_get sh (Z.of_nat i) = OK d -> sh !! i = Some d.
Proof.
  unfold shape_get.
  destruct (Z.ltb_spec (Z.of_nat i) 0) as [|_]; [lia|].
  destruct (_ && _); [|done]. rewrite Nat2Z.id.
  destruct (sh !! i); [|done]. by intros [= ->].
Qed.

Lemma zip5_nil {A B C D E} (l1 : list A) (l2 : list B) (l3 : list C)
  (l4 : list D) (l5 : list E) :
  l1 = [] \/ l2 = [] \/ l3 = [] \/ l4 = [] \/ l5 = [] ->
  zip5 l1 l2 l3 l4 l5 = [].
Proof.
  intros H. apply length_zero_iff_nil. rewrite zip5_length. unfold min5.
  destruct H as [->|[->|[->|[->| ->]]]]; simpl; lia.
Qed.

Lemma zip2_nil {A B} (xs : list A) (ys : list B) :
  xs = [] \/ ys = [] -> zip2 xs ys = [].
Proof.
  intros H. apply length_zero_iff_nil. rewrite zip2_length.
  destruct H as [-> | ->]; simpl; lia.
Qed.

Lemma arch_length b flags r :
  length (arch_of b flags r)
  = 11 + 2 * length (stages r) + Z.to_nat (rnn_layers flags)
    + length (finals r).
Proof.
  rewrite <- (length_map fst), arch_layers. unfold layers_of.
  rewrite !length_app, conv_layers_length, repeat_length, length_map.
  simpl. lia.
Qed.

Lemma count_bidirectional flags r :
  length (List.filter is_bidirectional (layers_of flags r))
  = Z.to_nat (rnn_layers flags).
Proof.
  unfold layers_of. rewrite !List.filter_app, !length_app.
  rewrite (filter_none _ (flat_map _ _))
    by (by intros l [(f & k & a & d & s & ->)| ->]%in_conv_layers).
  rewrite (filter_all _ (repeat _ _))
    by (by intros l ->%repeat_spec).
  rewrite (filter_none _ (map _ _))
    by (by intros l (u & a & ->)%in_dense_layers).
  rewrite repeat_length. simpl. lia.
Qed.

Lemma trunk_reshape flags r :
  trunk_of flags r !! (2 + 2 * length (stages r))
  = Some (Reshape [(-1)%Z; (r_d2 r * r_d3 r)%Z]).
Proof.
  unfold trunk_of, trunk_layers.
  rewrite (app_assoc [_; _]). apply list_lookup_middle.
  rewrite length_app, conv_layers_length. simpl. lia.
Qed.

Lemma arch_lookup_tail b flags r i l :
  tail_layers flags (finals r) !! i = Some l ->
  arch_of b flags r !! (S (length (trunk_of flags r)) + 5 + i)
  = Some (l, [b + length (trunk_of flags r) + 5 + i]).
Proof.
  intros H. unfold arch_of, arch. fold (trunk_of flags r) (finals r).
  cbn [app]. rewrite !Nat.add_succ_l, lookup_S.
  rewrite lookup_app_r by (rewrite chain_sigs_length; lia).
  rewrite chain_sigs_length, lookup_app_r by (simpl; lia).
  replace (length (trunk_of flags r) + 5 + i - length (trunk_of flags r)
           - length (attention (b + length (trunk_of flags r))
                       (dim_val (r_feature_dim r)) (r_time r / 2)))
    with i by (simpl; lia).
  by apply chain_sigs_lookup.
Qed.

Section ModelEdges.

Variable parse : string -> Lib (list PyVal).
Variable infer : Layer -> list Shape -> Lib Shape.

Lemma added_app (g d : Graph) : added g (g ++ d) = d.
Proof. apply drop_app_length. Qed.

Lemma count_added flags r (g d : Graph) (f : Layer -> bool) :
  map sig d = arch_of (length g) flags r ->
  count f (added g (g ++ d)) = length (List.filter f (layers_of flags r)).
Proof.
  intros Hs. rewrite added_app. unfold count.
  by rewrite <- sig_layers, Hs, arch_layers.
Qed.

(** X5: in a built graph the [Reshape] is applied to the node that ends the
    convolution stages and flattens its dimensions 2 and 3, both of which
    are known statically. *)
Theorem model_reshape flags g g' m :
  model parse infer flags g = (g', OK m) -> reshape_node g g'.
Proof.
  intros (r & d & Hr & -> & Hs & Hc & _)%model_ok.
  destruct Hr as (_ & _ & _ & _ & _ & _ & _ & _ & H2 & H3 & _).
  exists (length g + 2 + 2 * length (stages r)), (r_conv_shape r),
    (r_d2 r), (r_d3 r).
  split.
  { by rewrite (count_added flags r g d _ Hs), count_conv2d. }
  split.
  { replace (S (length g + 2 + 2 * length (stages r)))
      with (length g + S (2 + 2 * length (stages r))) by lia.
    rewrite (node_sig_new _ _ _ _ Hs).
    rewrite (arch_lookup_trunk _ _ _ _ _ (trunk_reshape flags r)).
    do 3 f_equal. lia. }
  split.
  { by rewrite <- Nat.add_assoc, lookup_new. }
  split; [exact (shape_get_lookup _ 2 _ H2) | exact (shape_get_lookup _ 3 _ H3)].
Qed.

(** X6: a built graph has eleven nodes (input, speech features,
    expand_dims, reshape, the five of the attention head, dropout, output
    layer) and, beside them, two per convolution stage, one per recurrent
    layer and one per hidden layer; the recurrent layers are as many as
    [range(rnn_layers)] has elements, none when [rnn_layers] is negative. *)
Theorem model_graph_size flags g g' m :
  model parse infer flags g = (g', OK m) -> graph_size parse flags g g'.
Proof.
  intros (r & d & Hr & -> & Hs & _)%model_ok.
  destruct Hr as (_ & H1 & H2 & H3 & H4 & H5 & H6 & H7 & _).
  exists (r_filters r), (r_kernel_sizes r), (r_activations r),
    (r_dilation_rates r), (r_strides r), (r_units r), (r_acts r).
  do 7 (split; [done|]). split.
  - by rewrite (count_added flags r g d _ Hs), count_bidirectional.
  - rewrite added_app, <- (length_map sig), Hs, arch_length.
    unfold stages, finals. by rewrite zip5_length, zip2_length.
Qed.

Lemma trunk_length flags r :
  length (trunk_of flags r)
  = 3 + 2 * length (stages r) + Z.to_nat (rnn_layers flags).
Proof.
  unfold trunk_of, trunk_layers.
  rewrite !length_app, conv_layers_length, repeat_length. simpl. lia.
Qed.

(** The attention head of a built graph, and where it sits. *)
Lemma model_head flags g g' m :
  model parse infer flags g = (g', OK m) ->
  exists r d,
    reads parse flags r /\ g' = g ++ d
    /\ map sig d = arch_of (length g) flags r
    /\ attention_pooling g' (length g + length (trunk_of flags r)).
Proof.
  intros (r & d & Hr & -> & Hs & _ & Hh & _)%model_ok.
  exists r, d. do 3 (split; [done|]).
  pose proof Hr as (_ & _ & _ & _ & _ & _ & _ & _ & _ & _ & Hfd & Htl).
  set (k := length (trunk_of flags r)) in *.
  assert (Hatt : forall i, i < 5 ->
    node_sig (g ++ d) (length g + k + S i)
    = attention (length g + k) (dim_val (r_feature_dim r))
        (r_time r / 2) !! i).
  { intros i Hi. rewrite <- Nat.add_assoc, (node_sig_new _ _ _ _ Hs).
    replace (k + S i) with (S k + i) by lia.
    by apply arch_lookup_attention. }
  exists (r_rnn_shape r), (r_feature_dim r), (r_time r).
  rewrite lookup_new.
  split; [done|]. split; [done|]. split; [done|].
  rewrite (Hatt 0), (Hatt 1), (Hatt 2), (Hatt 3), (Hatt 4) by lia.
  cbn. by rewrite <- !Nat.add_assoc.
Qed.

(** X7: when [rnn_layers] is zero or negative the loop over the recurrent
    layers does nothing: a built graph has no [Bidirectional] layer and
    the attention head sits on the output of the [Reshape]. *)
Theorem model_without_rnn flags g g' m :
  (rnn_layers flags <= 0)%Z ->
  model parse infer flags g = (g', OK m) ->
  attention_on_reshape g g'.
Proof.
  intros Hn (r & d & Hr & -> & Hs & Hatt)%model_head. split.
  { rewrite (count_added flags r g d _ Hs), count_bidirectional. lia. }
  exists (length g + length (trunk_of flags r)),
    [(-1)%Z; (r_d2 r * r_d3 r)%Z].
  split; [|done]. rewrite lookup_new.
  pose proof (trunk_last flags r) as Hlast.
  pose proof (trunk_length_pos flags r) as Hk.
  apply (arch_lookup_trunk (length g)) in Hlast.
  replace (S (length (trunk_of flags r) - 1))
    with (length (trunk_of flags r)) in Hlast by lia.
  rewrite <- Hs, map_lookup in Hlast.
  destruct (d !! length (trunk_of flags r)) as [n|]; [|done].
  unfold sig in Hlast. simpl in Hlast. injection Hlast as Hl _.
  destruct (Z.ltb_spec 0 (rnn_layers flags)); [lia|]. simpl. by rewrite Hl.
Qed.

(** X8: when one of the five lists of the convolutions is empty no
    [Conv2D] and no [BatchNormalization] is built, without an error: the
    [Reshape] is applied to the output of [expand_dims]. *)
Theorem model_without_cnn flags g g' m :
  no_cnn_stage parse flags ->
  model parse infer flags g = (g', OK m) ->
  reshape_on_expand_dims g g'.
Proof.
  intros Hnone (r & d & Hr & -> & Hs & _)%model_ok.
  destruct Hr as (_ & H1 & H2 & H3 & H4 & H5 & _).
  assert (Hst : stages r = []).
  { apply zip5_nil. unfold no_cnn_stage in Hnone.
    rewrite H1, H2, H3, H4, H5 in Hnone.
    destruct Hnone as [[= <-]|[[= <-]|[[= <-]|[[= <-]|[= <-]]]]]; auto. }
  split.
  { by rewrite (count_added flags r g d _ Hs), count_conv2d, Hst. }
  split.
  { by rewrite (count_added flags r g d _ Hs), count_batchnorm, Hst. }
  split.
  { rewrite (node_sig_new _ _ _ _ Hs).
    by rewrite (arch_lookup_trunk _ _ _ 1 ExpandDims). }
  exists [(-1)%Z; (r_d2 r * r_d3 r)%Z].
  rewrite (node_sig_new _ _ _ _ Hs).
  pose proof (trunk_reshape flags r) as Hre. rewrite Hst in Hre.
  by rewrite (arch_lookup_trunk _ _ _ _ _ Hre).
Qed.

(** X9: when [units2] or [act2] parses to the empty list no hidden layer
    is built, without an error: the output layer is applied to the
    dropout, and the graph has two [Dense] layers, the query projection and
    the output layer. *)
Theorem model_without_hidden_layers flags g g' m :
  parse (units2 flags) = Returns [] \/ parse (act2 flags) = Returns [] ->
  model parse infer flags g = (g', OK m) ->
  output_on_dropout flags g g' m.
Proof.
  intros Hnone (r & d & Hr & -> & Hs & _ & _ & _ & _ & Hout & _)%model_ok.
  destruct Hr as (_ & _ & _ & _ & _ & _ & H6 & H7 & _).
  assert (Hfin : finals r = []).
  { apply zip2_nil. rewrite H6, H7 in Hnone.
    destruct Hnone as [[= <-]|[= <-]]; auto. }
  split.
  { by rewrite (count_added flags r g d _ Hs), count_dense, Hfin. }
  exists (length g + (S (length (trunk_of flags r)) + 5 + 0)).
  assert (Hlen : length d = length (trunk_of flags r) + 8).
  { rewrite <- (length_map sig), Hs, arch_length, trunk_length, Hfin.
    simpl. lia. }
  split.
  { rewrite length_app in Hout. lia. }
  split.
  { rewrite lookup_new.
    pose proof (arch_lookup_tail (length g) flags r 0 _ eq_refl) as Hd.
    rewrite <- Hs, map_lookup in Hd.
    destruct (d !! _) as [n|]; [|done].
    unfold sig in Hd. simpl in Hd. injection Hd as Hl _.
    simpl. by rewrite Hl. }
  replace (S (length g + (S (length (trunk_of flags r)) + 5 + 0)))
    with (length g + (S (length (trunk_of flags r)) + 5 + 1)) by lia.
  rewrite (node_sig_new _ _ _ _ Hs).
  assert (Htail : tail_layers flags (finals r) !! 1
                  = Some (Dense (label_count flags) VNone))
    by (by rewrite Hfin).
  rewrite (arch_lookup_tail _ _ _ _ _ Htail). do 3 f_equal. lia.
Qed.

(** X10: the five hyperparameter strings of the convolutions are all
    parsed before the first convolution is built: when one of them does not
    parse the call raises, having built nothing beyond the input, the
    speech features and the [expand_dims]. *)
Theorem model_cnn_parse_failure flags g :
  cnn_parse_fails parse flags ->
  exists d e,
    model parse infer flags g = (g ++ d, Raise e)
    /\ map n_layer d `prefix_of` front_end flags.
Proof.
  intros Hfail. unfold model, bind.
  assert (Hfirst : (if negb (py_in (rnn_type flags) rnn_types)
                    then ret tt else ret tt) g = (g, OK tt))
    by (by destruct (negb _)).
  cbv zeta. rewrite Hfirst. unfold lift at 1.
  destruct (getitem rnn_types (rnn_type flags)) as [rnn|e0].
  2:{ exists [], e0. rewrite app_nil_r. split; [done|]. by eexists. }
  unfold call at 1. destruct (infer _ _) as [sh0|msg].
  2:{ eexists [], _. rewrite app_nil_r. split; [done|]. by eexists. }
  unfold call at 1. destruct (infer _ _) as [sh1|msg].
  2:{ eexists [_], _. split; [done|]. by eexists [_; _]. }
  unfold call at 1. destruct (infer _ _) as [sh2|msg].
  2:{ eexists [_; _], _. rewrite <- app_assoc. split; [done|].
      by eexists [_]. }
  match goal with
  | |- context [ lift (lib_result (parse (cnn_filters flags))) ?G ] =>
      assert (HG : exists d3, G = g ++ d3
                     /\ map n_layer d3 = front_end flags)
  end.
  { eexists [_; _; _]. by rewrite <- !app_assoc. }
  destruct HG as (d3 & HG & Hd3). rewrite HG. clear HG.
  assert (Hend : forall e, exists d e',
            (g ++ d3, @Raise KerasModel e) = (g ++ d, Raise e')
            /\ map n_layer d `prefix_of` front_end flags).
  { intros e. exists d3, e. split; [done|]. rewrite Hd3. by exists []. }
  unfold lift, lib_result.
  destruct (parse (cnn_filters flags)) as [l1|m1] eqn:E1; [|apply Hend].
  destruct (parse (cnn_kernel_size flags)) as [l2|m2] eqn:E2; [|apply Hend].
  destruct (parse (cnn_act flags)) as [l3|m3] eqn:E3; [|apply Hend].
  destruct (parse (cnn_dilation_rate flags)) as [l4|m4] eqn:E4;
    [|apply Hend].
  destruct (parse (cnn_strides flags)) as [l5|m5] eqn:E5; [|apply Hend].
  destruct Hfail as [[? ?]|[[? ?]|[[? ?]|[[? ?]|[? ?]]]]]; congruence.
Qed.

End ModelEdges.

(** ** What stands behind a failure *)

Lemma ends_ret {A} E (Q : A -> Graph -> Prop) a g :
  Q a g -> ends E Q (ret a) g.
Proof. done. Qed.

Lemma ends_lift {A} E (Q : A -> Graph -> Prop) (r : result A) g :
  match r with OK a => Q a g | Raise e => E e g end -> ends E Q (lift r) g.
Proof. done. Qed.

Lemma ends_bind {A B} E (Q : A -> Graph -> Prop) (R : B -> Graph -> Prop)
  (m : M A) (k : A -> M B) g :
  ends E Q m g -> (forall a g1, Q a g1 -> ends E R (k a) g1) ->
  ends E R (bind m k) g.
Proof.
  unfold ends, bind. intros Hm Hk.
  destruct (m g) as [g1 [a|e]]; [|done]. by apply Hk.
Qed.

Lemma ends_for_each {A} E (P : Tensor -> Graph -> Prop)
  (body : A -> Tensor -> M Tensor) xs :
  (forall x s g, P s g -> ends E P (body x s) g) ->
  forall s g, P s g -> ends E P (for_each xs body s) g.
Proof.
  intros Hbody. induction xs as [|x xs IH]; intros s g Hs; simpl.
  - by apply ends_ret.
  - eapply ends_bind; [by apply Hbody | done].
Qed.

Lemma shape_get_short (sh : Shape) (i : nat) e :
  shape_get sh (Z.of_nat i) = Raise e ->
  (exists msg, e = IndexError msg) /\ length sh <= i.
Proof.
  intros H. split; [by eapply shape_get_raise|]. revert H. unfold shape_get.
  destruct (Z.ltb_spec (Z.of_nat i) 0) as [|_]; [lia|].
  destruct (Z.leb_spec 0 (Z.of_nat i)); [|lia].
  destruct (Z.ltb_spec (Z.of_nat i) (Z.of_nat (length sh))) as [Hlt|]; [|lia].
  simpl. rewrite Nat2Z.id.
  destruct (sh !! i) eqn:E; [done|]. apply lookup_ge_None in E. lia.
Qed.

Lemma shape_get_empty (sh : Shape) e :
  shape_get sh (-1) = Raise e ->
  (exists msg, e = IndexError msg) /\ length sh = 0.
Proof.
  intros H. split; [by eapply shape_get_raise|]. revert H. unfold shape_get.
  change (-1 <? 0)%Z with true. cbv iota zeta.
  destruct (Z.leb_spec 0 (Z.of_nat (length sh) + -1)); [|lia].
  destruct (Z.ltb_spec (Z.of_nat (length sh) + -1) (Z.of_nat (length sh)));
    [|lia].
  simpl. destruct (sh !! Z.to_nat (Z.of_nat (length sh) + -1)) eqn:E; [done|].
  apply lookup_ge_None in E. lia.
Qed.

Lemma dim_mul_none a b e :
  dim_mul a b = Raise e ->
  (exists msg, e = TypeError msg) /\ (a = None \/ b = None).
Proof.
  destruct a, b; simpl; try done; intros [= <-]; split; eauto.
Qed.

Lemma dim_floordiv_none a b e :
  dim_floordiv a b = Raise e -> (exists msg, e = TypeError msg) /\ a = None.
Proof. destruct a; simpl; try done; intros [= <-]; split; eauto. Qed.

Section FailureCauses.

Variable parse : string -> Lib (list PyVal).
Variable infer : Layer -> list Shape -> Lib Shape.
Variable flags : Flags.

Lemma ends_call (kind : Layer -> bool) l ins g :
  kind l = true ->
  ends (fun e g' => failure_cause flags g' e) (built_last kind)
    (call infer l ins) g.
Proof.
  intros Hl. unfold ends, call.
  destruct (infer l (map t_shape ins)) as [sh|msg]; [|done].
  eexists. split; [apply last_snoc|]. by split.
Qed.

Lemma ends_call_any l ins g :
  ends (fun e g' => failure_cause flags g' e) (fun _ _ => True)
    (call infer l ins) g.
Proof.
  unfold ends, call. by destruct (infer l (map t_shape ins)) as [sh|msg].
Qed.

Lemma ends_lib {A} (P : Graph -> Prop) (r : Lib A) g :
  P g ->
  ends (fun e g' => failure_cause flags g' e) (fun _ g' => P g')
    (lift (lib_result r)) g.
Proof. intros HP. apply ends_lift. by destruct r. Qed.

(** X11: what stands behind a failing call.  A call that raises ends with
    the KeyError of an [rnn_type] that [rnn_types] lacks, with the
    exception of a library call, with an IndexError, the node built last
    being then the [expand_dims] or a [BatchNormalization] of fewer than
    four dimensions, or the [Reshape] or a [Bidirectional] layer of fewer
    than two, or with a TypeError, one of the dimensions that enter the
    target of the [Reshape] (2 and 3 of the former nodes) or the middle of
    the time axis (1 of the latter) being then unknown.  No call raises the
    ValueError that the source builds. *)
Theorem model_failure_cause g g' e :
  model parse infer flags g = (g', Raise e) ->
  failure_cause flags g' e.
Proof.
  intros Hrun.
  assert (H : ends (fun e g' => failure_cause flags g' e) (fun _ _ => True)
                (model parse infer flags) g).
  2:{ unfold ends in H. by rewrite Hrun in H. }
  clear Hrun. unfold model.
  eapply ends_bind.
  { instantiate (1 := fun _ _ => True). by destruct (negb _); apply ends_ret. }
  intros [] g1 _.
  eapply ends_bind.
  { apply (ends_lift _ (fun _ _ => True)).
    destruct (getitem rnn_types (rnn_type flags)) as [rnn|e0] eqn:Hg; [done|].
    by apply getitem_raise in Hg as [-> Hnone]. }
  intros rnn g2 _.
  eapply ends_bind; [apply ends_call_any | intros input_audio g3 _].
  eapply ends_bind; [apply ends_call_any | intros net1 g4 _].
  eapply ends_bind; [by apply (ends_call feeds_reshape) | intros net2 g5 H2].
  do 5 (eapply ends_bind;
        [by apply (ends_lib (built_last feeds_reshape net2))
        | clear H2; intros ? ? H2]).
  eapply ends_bind.
  { apply (ends_for_each _ (built_last feeds_reshape)); [|exact H2].
    intros [[[[? ?] ?] ?] ?] s gs _. unfold cnn_stage.
    eapply ends_bind; [apply ends_call_any | intros ? ? _].
    by apply (ends_call feeds_reshape). }
  clear H2. intros net3 h6 (n & Hlast & Hkind & Hshape). cbv zeta.
  rewrite <- Hshape.
  eapply ends_bind.
  { apply (ends_lift _ (fun d g' => last g' = Some n
                                    /\ n_shape n !! 2 = Some d)).
    destruct (shape_get (n_shape n) 2) as [d|e0] eqn:Hd.
    - split; [done|]. by apply (shape_get_lookup _ 2).
    - apply (shape_get_short _ 2) in Hd as [[msg ->] Hlen].
      exists n. split; [done|]. left. split; [done|]. lia. }
  clear Hlast. intros d2 h7 [Hlast Hd2].
  eapply ends_bind.
  { apply (ends_lift _ (fun d g' => last g' = Some n
                                    /\ n_shape n !! 3 = Some d)).
    destruct (shape_get (n_shape n) 3) as [d|e0] eqn:Hd.
    - split; [done|]. by apply (shape_get_lookup _ 3).
    - apply (shape_get_short _ 3) in Hd as [[msg ->] Hlen].
      exists n. split; [done|]. left. split; [done|]. lia. }
  clear Hlast. intros d3 h8 [Hlast Hd3].
  eapply ends_bind.
  { apply (ends_lift _ (fun _ _ => True)).
    destruct (dim_mul d2 d3) as [k|e0] eqn:Hk; [done|].
    apply dim_mul_none in Hk as [[msg ->] Hnone].
    exists n. split; [done|]. left. split; [done|].
    apply lookup_lt_Some in Hd3 as Hlen. split; [lia|].
    destruct Hnone as [-> | ->]; auto. }
  clear dependent n. intros features h9 _.
  eapply ends_bind;
    [by apply (ends_call feeds_attention) | intros net4 h10 H4].
  eapply ends_bind.
  { apply (ends_for_each _ (built_last feeds_attention)); [|exact H4].
    intros ? s gs _. unfold rnn_stage. by apply (ends_call feeds_attention). }
  clear H4. intros net5 h11 (n & Hlast & Hkind & Hshape).
  rewrite <- Hshape.
  eapply ends_bind.
  { apply (ends_lift _ (fun _ g' => last g' = Some n)).
    destruct (shape_get (n_shape n) (-1)) as [d|e0] eqn:Hd; [done|].
    apply shape_get_empty in Hd as [[msg ->] Hlen].
    exists n. split; [done|]. right. split; [done|]. lia. }
  clear Hlast. intros feature_dim h12 Hlast.
  eapply ends_bind.
  { apply (ends_lift _ (fun d g' => last g' = Some n
                                    /\ n_shape n !! 1 = Some d)).
    destruct (shape_get (n_shape n) 1) as [d|e0] eqn:Hd.
    - split; [done|]. by apply (shape_get_lookup _ 1).
    - apply (shape_get_short _ 1) in Hd as [[msg ->] Hlen].
      exists n. split; [done|]. right. split; [done|]. lia. }
  clear Hlast. intros d1 h13 [Hlast Hd1].
  eapply ends_bind.
  { apply (ends_lift _ (fun _ _ => True)).
    destruct (dim_floordiv d1 2) as [k|e0] eqn:Hk; [done|].
    apply dim_floordiv_none in Hk as [[msg ->] ->].
    exists n. split; [done|]. by right. }
  intros middle h14 _.
  do 6 (eapply ends_bind; [apply ends_call_any | intros ? ? _]).
  do 2 (eapply ends_bind;
        [by apply (ends_lib (fun _ => True)) | intros ? ? _]).
  eapply ends_bind.
  { apply (ends_for_each _ (fun _ _ => True)); [|done].
    intros [? ?] s gs _. unfold dense_stage. apply ends_call_any. }
  intros ? ? _.
  eapply ends_bind; [apply ends_call_any | intros ? ? _].
  by apply ends_ret.
Qed.

End FailureCauses.

(** ** The further properties at concrete inputs *)

Example model_bad_filters_front_end :
  model Example.parse Example.infer Edge.flags_bad_cnn []
  = (take 3 Example.graph, Raise (LibraryError "malformed node or string")).
Proof. vm_compute. reflexivity. Qed.

Lemma model_reshape_witness :
  model Example.parse Example.infer Example.flags_short []
  = (Example.graph_short, OK Example.keras_model_short)
  /\ reshape_node [] Example.graph_short.
Proof.
  split; [vm_compute; reflexivity|].
  apply (model_reshape Example.parse Example.infer Example.flags_short []
           Example.graph_short Example.keras_model_short).
  vm_compute. reflexivity.
Defined.

Lemma model_graph_size_witness :
  model Example.parse Example.infer Example.flags_short []
  = (Example.graph_short, OK Example.keras_model_short)
  /\ graph_size Example.parse Example.flags_short [] Example.graph_short.
Proof.
  split; [vm_compute; reflexivity|].
  apply (model_graph_size Example.parse Example.infer Example.flags_short []
           Example.graph_short Example.keras_model_short).
  vm_compute. reflexivity.
Defined.

Lemma model_without_rnn_witness :
  (rnn_layers Edge.flags_no_rnn <= 0)%Z
  /\ model Example.parse Example.infer Edge.flags_no_rnn []
     = (Edge.graph_no_rnn, OK Edge.model_no_rnn)
  /\ attention_on_reshape [] Edge.graph_no_rnn.
Proof.
  split; [simpl; lia|]. split; [vm_compute; reflexivity|].
  apply (model_without_rnn Example.parse Example.infer Edge.flags_no_rnn []
           Edge.graph_no_rnn Edge.model_no_rnn).
  - simpl. lia.
  - vm_compute. reflexivity.
Defined.

Lemma model_without_cnn_witness :
  no_cnn_stage Example.parse Edge.flags_no_cnn
  /\ model Example.parse Example.infer Edge.flags_no_cnn []
     = (Edge.graph_no_cnn, OK Edge.model_no_cnn)
  /\ reshape_on_expand_dims [] Edge.graph_no_cnn.
Proof.
  split; [left; reflexivity|]. split; [vm_compute; reflexivity|].
  apply (model_without_cnn Example.parse Example.infer Edge.flags_no_cnn []
           Edge.graph_no_cnn Edge.model_no_cnn).
  - left. reflexivity.
  - vm_compute. reflexivity.
Defined.

Lemma model_without_hidden_layers_witness :
  Example.parse (units2 Edge.flags_no_dense) = Returns []
  /\ model Example.parse Example.infer Edge.flags_no_dense []
     = (Edge.graph_no_dense, OK Edge.model_no_dense)
  /\ output_on_dropout Edge.flags_no_dense [] Edge.graph_no_dense
       Edge.model_no_dense.
Proof.
  split; [reflexivity|]. split; [vm_compute; reflexivity|].
  apply (model_without_hidden_layers Example.parse Example.infer
           Edge.flags_no_dense [] Edge.graph_no_dense Edge.model_no_dense).
  - left. reflexivity.
  - vm_compute. reflexivity.
Defined.

Lemma model_cnn_parse_failure_witness :
  cnn_parse_fails Example.parse Edge.flags_bad_cnn
  /\ exists d e,
       model Example.parse Example.infer Edge.flags_bad_cnn []
       = ([] ++ d, Raise e)
       /\ map n_layer d `prefix_of` front_end Edge.flags_bad_cnn.
Proof.
  split; [left; eexists; reflexivity|].
  apply (model_cnn_parse_failure Example.parse Example.infer
           Edge.flags_bad_cnn []).
  left. eexists. reflexivity.
Defined.

Example model_unknown_length :
  model Example.parse Dynamic.infer Dynamic.flags []
  = (Dynamic.graph, Raise (TypeError "unsupported operand type(s) for //"))
  /\ length Dynamic.graph = 8
  /\ last Dynamic.graph
     = Some {| n_layer := Reshape [(-1)%Z; 20%Z];
               n_inputs := [6];
               n_shape := [Some 100%Z; None; Some 20%Z] |}.
Proof. vm_compute. done. Qed.

Lemma model_failure_cause_witness :
  model Example.parse Dynamic.infer Dynamic.flags []
  = (Dynamic.graph, Raise (TypeError "unsupported operand type(s) for //"))
  /\ failure_cause Dynamic.flags Dynamic.graph
       (TypeError "unsupported operand type(s) for //").
Proof.
  split; [vm_compute; reflexivity|].
  apply (model_failure_cause Example.parse Dynamic.infer Dynamic.flags []
           Dynamic.graph (TypeError "unsupported operand type(s) for //")).
  vm_compute. reflexivity.
Defined.
